(** * Streamer Help backend (server.js): persistence and aggregation layer

    A shallow embedding of [server.js]: the two JSON files under
    [storage/], the helpers that read and write them, storage
    initialisation, and the handlers of [POST /api/register],
    [POST /api/activity] and [GET /api/stats], followed by the properties
    of the specification that concern them.

    Modelling decisions, all visible in the definitions below:
    - a JavaScript value is a JSON value or [undefined]; a number is a
      finite double that holds an integer (no fractional part, no
      infinity, no NaN): [Num z] stands for the double [z], and for no
      value of the program when no finite double holds [z];
    - objects are finite maps from property names to values, arrays are
      lists;
    - a text file is described by what [JSON.parse] makes of its content:
      either a syntax error or the value it denotes; [JSON.stringify]
      yields the text denoting its argument, which holds of the finite
      numbers of the model only (the program writes an infinite number
      as [null]);
    - [async] functions run to completion one after the other: a function
      of the handler is a state transformer over the disk that either
      returns a value or throws;
    - [new Date().toISOString()] reads the next value of a clock that is
      part of the world;
    - failures of the operating system other than a missing directory, a
      missing file and a file that cannot be opened (a full disk, a
      storage path that is not a directory) are outside the model, and so
      are requests that overlap in time. *)

From stdpp Require Import gmap strings list fin_maps.
From Stdlib Require Import ZArith Ascii DecimalString.

Set Warnings "-register-all".

(** ** JavaScript values *)

Inductive json : Type :=
  | Null
  | Bool (b : bool)
  | Num (z : Z)
  | Str (s : string)
  | Arr (l : list json)
  | Obj (m : gmap string json).

(** The result of a JavaScript expression: [None] is [undefined]. *)
Definition jsval : Type := option json.
Abbreviation undefined := (@None json).

(** ToBoolean: [undefined], [null], [false], [0] and [""] are falsy. *)
Definition truthy (v : jsval) : bool :=
  match v with
  | None => false
  | Some Null => false
  | Some (Bool b) => b
  | Some (Num z) => negb (z =? 0)%Z
  | Some (Str s) => negb (String.eqb s "")
  | Some (Arr _) => true
  | Some (Obj _) => true
  end.

(** [a === b].  Primitives are compared by type and value.  Arrays and
    objects are compared by identity; every array or object met by the
    handlers comes from its own [JSON.parse] call or literal, so two of
    them are never the same allocation. *)
Definition strict_eq (a b : jsval) : bool :=
  match a, b with
  | None, None => true
  | Some Null, Some Null => true
  | Some (Bool x), Some (Bool y) => Bool.eqb x y
  | Some (Num x), Some (Num y) => (x =? y)%Z
  | Some (Str x), Some (Str y) => String.eqb x y
  | _, _ => false
  end.

(** [a || b] where [b] is a defined value, as in every use by the
    handlers. *)
Definition js_or (a : jsval) (b : json) : json :=
  match a with
  | Some v => if truthy a then v else b
  | None => b
  end.

(** ** Exceptions *)

Inductive exn := TypeError | SyntaxError | ENOENT | EACCES.

Inductive result (A : Type) : Type :=
  | Ok (a : A)
  | Throw (e : exn).
Arguments Ok {A} a.
Arguments Throw {A} e.

Definition rbind {A B} (r : result A) (k : A → result B) : result B :=
  match r with
  | Ok a => k a
  | Throw e => Throw e
  end.

Notation "'let?' x := r 'in' k" := (rbind r (λ x, k))
  (at level 10, x pattern, r at level 100, k at level 200,
   format "'[v' 'let?'  x  :=  r  'in' '/' k ']'").

(** [v.k] for a property name [k] that no prototype defines (all the
    names read by the handlers are of that kind): reading a property of
    [undefined] or [null] throws, a missing property is [undefined]. *)
Definition prop (v : jsval) (k : string) : result jsval :=
  match v with
  | None => Throw TypeError
  | Some Null => Throw TypeError
  | Some (Obj m) => Ok (m !! k)
  | Some _ => Ok undefined
  end.

(** [o.k = x] (sloppy mode): sets the property of an object, is ignored
    on a primitive and throws on [null]. *)
Definition set_prop (o : json) (k : string) (x : json) : result json :=
  match o with
  | Null => Throw TypeError
  | Obj m => Ok (Obj (<[k := x]> m))
  | _ => Ok o
  end.

(** An object literal [{k1: v1, ...}] as it reaches a file or a client:
    a property whose value is [undefined] is left out. *)
Definition object_literal (fields : list (string * jsval)) : json :=
  Obj (list_to_map (omap (λ kv, pair kv.1 <$> kv.2) fields)).

(** *** Array methods

    Each throws a [TypeError] when the receiver is not an array (the
    method is then [undefined] and cannot be called). *)

Fixpoint find_first (p : json → result bool) (l : list json)
    : result jsval :=
  match l with
  | [] => Ok undefined
  | x :: l' =>
      let? b := p x in
      if b then Ok (Some x) else find_first p l'
  end.

Definition Array_find (p : json → result bool) (a : json) : result jsval :=
  match a with
  | Arr l => find_first p l
  | _ => Throw TypeError
  end.

Fixpoint find_index_from (p : json → result bool) (l : list json) (i : Z)
    : result Z :=
  match l with
  | [] => Ok (-1)%Z
  | x :: l' =>
      let? b := p x in
      if b then Ok i else find_index_from p l' (i + 1)%Z
  end.

Definition Array_findIndex (p : json → result bool) (a : json) : result Z :=
  match a with
  | Arr l => find_index_from p l 0%Z
  | _ => Throw TypeError
  end.

Fixpoint filter_list (p : json → result bool) (l : list json)
    : result (list json) :=
  match l with
  | [] => Ok []
  | x :: l' =>
      let? b := p x in
      let? r := filter_list p l' in
      Ok (if b then x :: r else r)
  end.

Definition Array_filter (p : json → result bool) (a : json)
    : result (list json) :=
  match a with
  | Arr l => filter_list p l
  | _ => Throw TypeError
  end.

Fixpoint reduce_list (f : json → json → result json) (l : list json)
    (acc : json) : result json :=
  match l with
  | [] => Ok acc
  | x :: l' =>
      let? acc' := f acc x in
      reduce_list f l' acc'
  end.

Definition Array_push (a : json) (x : json) : result json :=
  match a with
  | Arr l => Ok (Arr (l ++ [x]))
  | _ => Throw TypeError
  end.

(** [a.length]; the handlers read it from arrays only. *)
Definition Array_length (a : json) : result Z :=
  match a with
  | Arr l => Ok (Z.of_nat (length l))
  | _ => Throw TypeError
  end.

(** [a.splice(0, n)] as a statement: drops the first [n] elements. *)
Definition Array_splice0 (a : json) (n : Z) : result json :=
  match a with
  | Arr l => Ok (Arr (drop (Z.to_nat n) l))
  | _ => Throw TypeError
  end.

(** [users[i].k = x]. *)
Definition Array_set_prop_at (a : json) (i : Z) (k : string) (x : json)
    : result json :=
  match a with
  | Arr l =>
      match l !! Z.to_nat i with
      | Some o => let? o' := set_prop o k x in Ok (Arr (<[Z.to_nat i := o']> l))
      | None => Throw TypeError
      end
  | _ => Throw TypeError
  end.

(** *** Strings *)

(** [s.split(c)] for a one-character separator: the pieces between the
    occurrences of [c]; never empty. *)
Fixpoint split_on (c : Ascii.ascii) (s : string) : list string :=
  match s with
  | EmptyString => [EmptyString]
  | String a s' =>
      if Ascii.eqb a c then EmptyString :: split_on c s'
      else match split_on c s' with
           | h :: t => String a h :: t
           | [] => [String a EmptyString]
           end
  end.

(** [v.split('T')[0]]: [split] is a method of strings only. *)
Definition split_T_first (v : jsval) : result jsval :=
  match v with
  | Some (Str s) => Ok (Str <$> head (split_on "T"%char s))
  | _ => Throw TypeError
  end.

(** *** Numbers and [+]

    [Num z] stands for the double that holds the integer [z].  On the
    safe integers, those of absolute value at most [2^53 - 1], doubles
    and integers agree in arithmetic and in print. *)

Definition safe_integer (z : Z) : bool := (Z.abs z <=? 2 ^ 53 - 1)%Z.

(** The double nearest to the integer [z], ties to the even significand
    (of 53 bits).  The result is a finite double when it is below
    [2^1024]; beyond that the program has [Infinity], which the model
    has not. *)
Definition to_double (z : Z) : Z :=
  let n := Z.abs z in
  if (n <? 2 ^ 53)%Z then z
  else
    let shift := (Z.log2 n - 52)%Z in
    let q := Z.shiftr n shift in
    let r := (n mod 2 ^ shift)%Z in
    let half := (2 ^ (shift - 1))%Z in
    let q' :=
      if (half <? r)%Z || ((r =? half)%Z && Z.odd q) then (q + 1)%Z
      else q in
    (Z.sgn z * Z.shiftl q' shift)%Z.

(** The integers that a finite double holds: those of at most 53
    significant bits below [2^1024]. *)
Definition finite_double (z : Z) : bool :=
  (to_double z =? z)%Z && (Z.abs z <? 2 ^ 1024)%Z.

(** ToString of a number: its decimal digits (what JavaScript prints for
    a safe integer). *)
Definition Z_to_string (z : Z) : string :=
  NilZero.string_of_int (Z.to_int z).

(** ToString of a value, as [+] and [join] apply it.  An object with an
    own [toString] property, which in a JSON value is never a function,
    has no primitive value: a [TypeError].  In an array [null] prints as
    the empty string. *)
Fixpoint toString (v : json) : result string :=
  match v with
  | Null => Ok "null"
  | Bool true => Ok "true"
  | Bool false => Ok "false"
  | Num z => Ok (Z_to_string z)
  | Str s => Ok s
  | Arr l =>
      (fix join (l : list json) : result string :=
         match l with
         | [] => Ok ""
         | x :: l' =>
             let? s := match x with Null => Ok "" | _ => toString x end in
             match l' with
             | [] => Ok s
             | _ => let? r := join l' in Ok (s +:+ "," +:+ r)
             end
         end) l
  | Obj m =>
      match m !! "toString" with
      | Some _ => Throw TypeError
      | None => Ok "[object Object]"
      end
  end.

(** [a + b]: concatenation as soon as one operand is a string, an array
    or an object, addition of doubles otherwise ([null] and [false]
    count 0, [true] counts 1). *)
Definition stringish (v : json) : bool :=
  match v with
  | Str _ | Arr _ | Obj _ => true
  | _ => false
  end.

Definition toNumber (v : json) : Z :=
  match v with
  | Num z => z
  | Bool true => 1%Z
  | _ => 0%Z
  end.

Definition js_add (a b : json) : result json :=
  if stringish a || stringish b then
    let? sa := toString a in
    let? sb := toString b in
    Ok (Str (sa +:+ sb))
  else Ok (Num (to_double (toNumber a + toNumber b))).

(** ** The disk and the clock *)

(** The content of a file, seen through [JSON.parse]. *)
Inductive text :=
  | NotJson
  | Denotes (v : json).

Definition JSON_parse (t : text) : result json :=
  match t with
  | NotJson => Throw SyntaxError
  | Denotes v => Ok v
  end.

(** [JSON.stringify] writes a text that [JSON.parse] reads back as the
    value written: so it is for strings, booleans, [null], finite
    numbers, and the arrays and objects made of them, which are the
    values of the model.  An infinite number, what [JSON.parse] makes of
    [1e400], has no counterpart here: the program writes it as [null]. *)
Definition JSON_stringify (v : json) : text := Denotes v.

(** A path of the storage directory: nothing there, something that can
    be neither read nor written, or a text file. *)
Inductive file :=
  | Absent
  | Unreadable
  | Holds (t : text).

Inductive path := USERS_FILE | ACTIVITY_FILE.

Record dir := { users_json : file; activity_json : file }.

(** [DATA_DIR] is [None] as long as the directory [storage/] does not
    exist.  [clock n] is the [n]-th reading of
    [new Date().toISOString()], [ticks] the number of readings so far. *)
Record world := {
  DATA_DIR : option dir;
  clock : nat → string;
  ticks : nat
}.

Definition file_in (p : path) (d : dir) : file :=
  match p with
  | USERS_FILE => users_json d
  | ACTIVITY_FILE => activity_json d
  end.

Definition file_at (p : path) (w : world) : file :=
  match DATA_DIR w with
  | None => Absent
  | Some d => file_in p d
  end.

Definition put_file (p : path) (f : file) (d : dir) : dir :=
  match p with
  | USERS_FILE => {| users_json := f; activity_json := activity_json d |}
  | ACTIVITY_FILE => {| users_json := users_json d; activity_json := f |}
  end.

Definition with_dir (w : world) (d : option dir) : world :=
  {| DATA_DIR := d; clock := clock w; ticks := ticks w |}.

(** ** Computations: world passing with exceptions

    A thrown exception keeps the world as it was when it was thrown:
    what has been written stays written. *)

Definition M (A : Type) : Type := world → result A * world.

Definition ret {A} (a : A) : M A := λ w, (Ok a, w).

Definition bind {A B} (m : M A) (k : A → M B) : M B :=
  λ w, match m w with
       | (Ok a, w') => k a w'
       | (Throw e, w') => (Throw e, w')
       end.

Definition lift {A} (r : result A) : M A := λ w, (r, w).

(** [try { m } catch { h }] *)
Definition try_catch {A} (m : M A) (h : M A) : M A :=
  λ w, match m w with
       | (Ok a, w') => (Ok a, w')
       | (Throw _, w') => h w'
       end.

Notation "'let*' x := m 'in' k" := (bind m (λ x, k))
  (at level 10, x pattern, m at level 100, k at level 200,
   format "'[v' 'let*'  x  :=  m  'in' '/' k ']'").
Notation "m ;; k" := (bind m (λ _, k))
  (at level 100, k at level 200, right associativity).

(** *** File system and clock primitives *)

(** [fs.mkdir(DATA_DIR, { recursive: true })] *)
Definition fs_mkdir_recursive : M unit :=
  λ w, match DATA_DIR w with
       | None =>
           (Ok (), with_dir w
                     (Some {| users_json := Absent; activity_json := Absent |}))
       | Some _ => (Ok (), w)
       end.

(** [fs.access(p)]: rejects when nothing is at [p]. *)
Definition fs_access (p : path) : M unit :=
  λ w, match file_at p w with
       | Absent => (Throw ENOENT, w)
       | _ => (Ok (), w)
       end.

(** [fs.readFile(p, 'utf8')] *)
Definition fs_readFile (p : path) : M text :=
  λ w, match file_at p w with
       | Absent => (Throw ENOENT, w)
       | Unreadable => (Throw EACCES, w)
       | Holds t => (Ok t, w)
       end.

(** [fs.writeFile(p, t)]: creates or replaces the file; rejects when the
    directory is missing or the path cannot be opened. *)
Definition fs_writeFile (p : path) (t : text) : M unit :=
  λ w, match DATA_DIR w with
       | None => (Throw ENOENT, w)
       | Some d =>
           match file_in p d with
           | Unreadable => (Throw EACCES, w)
           | _ => (Ok (), with_dir w (Some (put_file p (Holds t) d)))
           end
       end.

(** [new Date().toISOString()] *)
Definition tick (w : world) : world :=
  {| DATA_DIR := DATA_DIR w; clock := clock w; ticks := S (ticks w) |}.

Definition Date_now_toISOString : M json :=
  λ w, (Ok (Str (clock w (ticks w))), tick w).

(** [a || e] where [e] is evaluated only when [a] is falsy. *)
Definition or_else (a : jsval) (e : M json) : M json :=
  match a with
  | Some v => if truthy a then ret v else e
  | None => e
  end.

(** ** server.js *)

(** *** Initialization *)

Definition initializeStorage : M unit :=
  try_catch
    (fs_mkdir_recursive;;
     try_catch (fs_access USERS_FILE)
       (fs_writeFile USERS_FILE (JSON_stringify (Arr [])));;
     try_catch (fs_access ACTIVITY_FILE)
       (fs_writeFile ACTIVITY_FILE (JSON_stringify (Arr [])));;
     ret ())
    (ret ()).

(** *** Data helpers *)

Definition readUsers : M json :=
  try_catch
    (let* data := fs_readFile USERS_FILE in
     lift (JSON_parse data))
    (ret (Arr [])).

Definition writeUsers (users : json) : M unit :=
  fs_writeFile USERS_FILE (JSON_stringify users).

Definition readActivity : M json :=
  try_catch
    (let* data := fs_readFile ACTIVITY_FILE in
     lift (JSON_parse data))
    (ret (Arr [])).

Definition writeActivity (activity : json) : M unit :=
  fs_writeFile ACTIVITY_FILE (JSON_stringify activity).

(** *** API endpoints *)

Record response := { status : Z; body : json }.

(** [res.status(c).json(o)] and [res.json(o)] *)
Definition res_status_json (c : Z) (o : json) : response :=
  {| status := c; body := o |}.
Definition res_json (o : json) : response := res_status_json 200 o.

(** [POST /api/register]; [req_body] is [req.body]. *)
Definition post_register (req_body : jsval) : M response :=
  try_catch
    (let* id := lift (prop req_body "id") in
     let* username := lift (prop req_body "username") in
     let* email := lift (prop req_body "email") in
     let* registeredAt := lift (prop req_body "registeredAt") in
     let* version := lift (prop req_body "version") in
     if negb (truthy id) || negb (truthy username) || negb (truthy email)
     then
       ret (res_status_json 400
              (object_literal
                 [("error", Some (Str "Missing required fields"))]))
     else
       let* users := readUsers in
       let* existingUser :=
         lift (Array_find
                 (λ u, let? u_id := prop (Some u) "id" in
                       if strict_eq u_id id then Ok true
                       else let? u_email := prop (Some u) "email" in
                            Ok (strict_eq u_email email))
                 users) in
       if truthy existingUser then
         ret (res_status_json 200
                (object_literal
                   [("message", Some (Str "User already registered"));
                    ("user", existingUser)]))
       else
         let* registeredAt' := or_else registeredAt Date_now_toISOString in
         let version' := js_or version (Str "1.0.0") in
         let* lastActive := Date_now_toISOString in
         let newUser :=
           object_literal
             [("id", id); ("username", username); ("email", email);
              ("registeredAt", Some registeredAt');
              ("version", Some version');
              ("lastActive", Some lastActive)] in
         let* users' := lift (Array_push users newUser) in
         writeUsers users';;
         ret (res_json
                (object_literal
                   [("success", Some (Bool true)); ("user", Some newUser)])))
    (ret (res_status_json 500
            (object_literal [("error", Some (Str "Registration failed"))]))).

(** [POST /api/activity] *)
Definition post_activity (req_body : jsval) : M response :=
  try_catch
    (let* userId := lift (prop req_body "userId") in
     let* action := lift (prop req_body "action") in
     let* messagesSent := lift (prop req_body "messagesSent") in
     let* timestamp := lift (prop req_body "timestamp") in
     if negb (truthy userId) || negb (truthy action) then
       ret (res_status_json 400
              (object_literal
                 [("error", Some (Str "Missing required fields"))]))
     else
       let* users := readUsers in
       let* userIndex :=
         lift (Array_findIndex
                 (λ u, let? u_id := prop (Some u) "id" in
                       Ok (strict_eq u_id userId))
                 users) in
       (if negb (userIndex =? -1)%Z then
          let* lastActive := or_else timestamp Date_now_toISOString in
          let* users' :=
            lift (Array_set_prop_at users userIndex "lastActive" lastActive) in
          writeUsers users'
        else ret ());;
       let* activity := readActivity in
       let messagesSent' := js_or messagesSent (Num 0) in
       let* timestamp' := or_else timestamp Date_now_toISOString in
       let* activity1 :=
         lift (Array_push activity
                 (object_literal
                    [("userId", userId); ("action", action);
                     ("messagesSent", Some messagesSent');
                     ("timestamp", Some timestamp')])) in
       let* len := lift (Array_length activity1) in
       let* activity2 :=
         if (len >? 1000)%Z
         then lift (Array_splice0 activity1 (len - 1000)%Z)
         else ret activity1 in
       writeActivity activity2;;
       ret (res_json (object_literal [("success", Some (Bool true))])))
    (ret (res_status_json 500
            (object_literal [("error", Some (Str "Failed to log activity"))]))).

(** [GET /api/users] *)
Definition get_users : M response :=
  try_catch
    (let* users := readUsers in
     ret (res_json (object_literal [("users", Some users)])))
    (ret (res_status_json 500
            (object_literal [("error", Some (Str "Failed to fetch users"))]))).

(** [GET /api/activity] *)
Definition get_activity : M response :=
  try_catch
    (let* activity := readActivity in
     ret (res_json (object_literal [("activity", Some activity)])))
    (ret (res_status_json 500
            (object_literal
               [("error", Some (Str "Failed to fetch activity"))]))).

(** [GET /api/stats] *)
Definition get_stats : M response :=
  try_catch
    (let* users := readUsers in
     let* activity := readActivity in
     let* now := Date_now_toISOString in
     let* today := lift (split_T_first (Some now)) in
     let* active :=
       lift (Array_filter
               (λ u, let? u_lastActive := prop (Some u) "lastActive" in
                     let? lastActive :=
                       if truthy u_lastActive
                       then split_T_first u_lastActive
                       else Ok (Some Null) in
                     Ok (strict_eq lastActive today))
               users) in
     let activeToday := Num (Z.of_nat (length active)) in
     let* stops :=
       lift (Array_filter
               (λ a, let? a_action := prop (Some a) "action" in
                     Ok (strict_eq a_action (Some (Str "stop"))))
               activity) in
     let* totalMessages :=
       lift (reduce_list
               (λ sum a, let? a_messagesSent := prop (Some a) "messagesSent" in
                         js_add sum (js_or a_messagesSent (Num 0)))
               stops (Num 0)) in
     let* totalUsers := lift (Array_length users) in
     ret (res_json
            (object_literal
               [("totalUsers", Some (Num totalUsers));
                ("activeToday", Some activeToday);
                ("totalMessages", Some totalMessages)])))
    (ret (res_status_json 500
            (object_literal [("error", Some (Str "Failed to fetch stats"))]))).

(** ** Vocabulary of the properties *)

(** The collection a file stands for: the value its text denotes, the
    empty collection when there is no such value. *)
Definition stored (p : path) (w : world) : json :=
  match file_at p w with
  | Holds (Denotes v) => v
  | _ => Arr []
  end.

Definition is_object (v : json) : bool :=
  match v with
  | Obj _ => true
  | _ => false
  end.

(** A file has the structure the server expects when it is a text
    denoting an array of records. *)
Definition expected_structure (f : file) : bool :=
  match f with
  | Holds (Denotes (Arr l)) => forallb is_object l
  | _ => false
  end.

(** [null], booleans, numbers and strings: the values [===] compares by
    content. *)
Definition primitive (v : jsval) : bool :=
  match v with
  | Some (Arr _) | Some (Obj _) => false
  | _ => true
  end.

(** The User [u] has the given [id] or the given [email]. *)
Definition same_user (id email : jsval) (u : json) : bool :=
  match u with
  | Obj m => strict_eq (m !! "id") id || strict_eq (m !! "email") email
  | _ => false
  end.

(** The User [u] has the given [id]. *)
Definition has_id (id : jsval) (u : json) : bool :=
  match u with
  | Obj m => strict_eq (m !! "id") id
  | _ => false
  end.

(** The field [k] of a request body [b] other than [null]. *)
Definition field (b : json) (k : string) : jsval :=
  match b with
  | Obj m => m !! k
  | _ => undefined
  end.

Definition missing_fields : json :=
  Obj {[ "error" := Str "Missing required fields" ]}.

Definition bad_request : response :=
  {| status := 400; body := missing_fields |}.

(** The last [n] elements of a list, oldest first. *)
Definition last_n {A} (n : nat) (l : list A) : list A :=
  reverse (take n (reverse l)).


(** The answers of [POST /api/register]. *)
Definition already_registered (u : json) : response :=
  {| status := 200;
     body := Obj (<["message" := Str "User already registered"]>
                    (<["user" := u]> ∅)) |}.

Definition registered (u : json) : response :=
  {| status := 200;
     body := Obj (<["success" := Bool true]> (<["user" := u]> ∅)) |}.

(** The answer of [POST /api/activity]. *)
Definition logged : response :=
  {| status := 200; body := Obj {[ "success" := Bool true ]} |}.

(** The required fields of a request are present and truthy. *)
Definition valid_register (m : gmap string json) : bool :=
  truthy (m !! "id") && truthy (m !! "username") && truthy (m !! "email").

Definition valid_activity (m : gmap string json) : bool :=
  truthy (m !! "userId") && truthy (m !! "action").

(** The event recorded for the request body [m] at time [t]. *)
Definition event_of (m : gmap string json) (t : json) : json :=
  object_literal
    [("userId", m !! "userId"); ("action", m !! "action");
     ("messagesSent", Some (js_or (m !! "messagesSent") (Num 0)));
     ("timestamp", Some t)].

(** The time stamped by a request: its own [timestamp] when it has a
    truthy one, the reading [now] of the clock otherwise. *)
Definition stamp (m : gmap string json) (now : string) : json :=
  js_or (m !! "timestamp") (Str now).

(** The User [u] with [lastActive] set to [t]. *)
Definition touch (t : json) (u : json) : json :=
  match u with
  | Obj mu => Obj (<["lastActive" := t]> mu)
  | _ => u
  end.

(** The worlds after a sequence of activity requests. *)
Definition run_activity (bodies : list (gmap string json)) (w : world)
    : world :=
  foldl (λ w m, (post_activity (Some (Obj m)) w).2) w bodies.

(** [wp c w Q]: running [c] in the world [w] ends, normally or by an
    exception, in a result and a world that satisfy [Q]. *)
Definition wp {A} (c : M A) (w : world) (Q : result A → world → Prop)
    : Prop :=
  Q (c w).1 (c w).2.

(** What an activity request for the body [m] does to the Users
    collection [us] between the worlds [w] and [w']: the file is as it
    was when no User has the [userId]; otherwise it holds [us] with the
    first such User touched at the time stamped by the request. *)
Definition users_touched (m : gmap string json) (us : list json)
    (w w' : world) : Prop :=
  match list_find (λ u, has_id (m !! "userId") u = true) us with
  | None => file_at USERS_FILE w' = file_at USERS_FILE w
  | Some (i, u) =>
      ∃ k, file_at USERS_FILE w' =
             Holds (Denotes
                      (Arr (<[i := touch (stamp m (clock w k)) u]> us)))
  end.

(** What the retention policy keeps of the events [l]. *)
Definition retained (l : list json) : list json :=
  drop (length l - 1000) l.

(** The outcome of an activity request for the body [m], started in the
    world [w] whose Users collection is [us]. *)
Definition activity_post (m : gmap string json) (us : list json) (w : world)
    (r : result response) (w' : world) : Prop :=
  clock w' = clock w
  ∧ users_touched m us w w'
  ∧ (∃ resp, r = Ok resp)
  ∧ ∀ old, file_at ACTIVITY_FILE w = Holds (Denotes (Arr old)) →
           r = Ok logged
           ∧ ∃ k, file_at ACTIVITY_FILE w' =
                    Holds (Denotes
                      (Arr (retained
                              (old ++ [event_of m (stamp m (clock w k))])))).

(** The date component of a timestamp: what precedes its first ['T']. *)
Fixpoint date_part (s : string) : string :=
  match s with
  | EmptyString => EmptyString
  | String a s' =>
      if Ascii.eqb a "T"%char then EmptyString else String a (date_part s')
  end.

(** The User [u] was last active on the day [today]. *)
Definition active_on (today : string) (u : json) : bool :=
  match field u "lastActive" with
  | Some (Str s) => negb (String.eqb s "") && String.eqb (date_part s) today
  | _ => false
  end.

(** The number of elements of [l] that satisfy [q]. *)
Fixpoint count_if {A} (q : A → bool) (l : list A) : Z :=
  match l with
  | [] => 0%Z
  | x :: l' => ((if q x then 1 else 0) + count_if q l')%Z
  end.

(** The event [a] marks the end of a session. *)
Definition is_stop (a : json) : bool :=
  strict_eq (field a "action") (Some (Str "stop")).

(** The count an event carries: its [messagesSent] when that is a
    number, 0 otherwise. *)
Definition messagesSent_of (a : json) : Z :=
  match field a "messagesSent" with
  | Some (Num z) => z
  | _ => 0%Z
  end.

(** The sum of [messagesSent] over the stop events of [l]. *)
Definition total_stop_messages (l : list json) : Z :=
  foldr Z.add 0%Z (messagesSent_of <$> List.filter is_stop l).

(** A stored User: a record whose [lastActive], when it has a truthy
    one, is a string. *)
Definition user_record (u : json) : bool :=
  is_object u
  && match field u "lastActive" with
     | Some (Str _) => true
     | la => negb (truthy la)
     end.

(** A stored event: a record whose [messagesSent], when it is a stop
    event, is a number or missing. *)
Definition event_record (a : json) : bool :=
  is_object a
  && (negb (is_stop a)
      || match field a "messagesSent" with
         | Some (Num _) | None => true
         | _ => false
         end).

(** The answer of [GET /api/stats]. *)
Definition stats (totalUsers activeToday totalMessages : Z) : response :=
  {| status := 200;
     body := Obj (<["totalUsers" := Num totalUsers]>
                    (<["activeToday" := Num activeToday]>
                       (<["totalMessages" := Num totalMessages]> ∅))) |}.

(** ** Sample worlds and requests *)

Definition sample_clock (n : nat) : string := "2024-05-01T10:00:00.000Z".

Definition user_ann : json :=
  Obj (list_to_map
         [("id", Str "u1"); ("username", Str "ann");
          ("email", Str "ann@x.com");
          ("registeredAt", Str "2024-04-30T08:00:00.000Z");
          ("version", Str "1.0.0");
          ("lastActive", Str "2024-05-01T09:00:00.000Z")]).

Definition user_bob : json :=
  Obj (list_to_map
         [("id", Str "u2"); ("username", Str "bob");
          ("email", Str "bob@x.com");
          ("registeredAt", Str "2024-04-29T08:00:00.000Z");
          ("version", Str "1.0.0");
          ("lastActive", Str "2024-04-30T23:59:59.000Z")]).

Definition sample_world (us acts : list json) : world :=
  {| DATA_DIR := Some {| users_json := Holds (Denotes (Arr us));
                         activity_json := Holds (Denotes (Arr acts)) |};
     clock := sample_clock;
     ticks := 0 |}.

Definition register_u1 : gmap string json :=
  list_to_map [("id", Str "u1"); ("username", Str "ann2");
               ("email", Str "other@x.com")].

Definition register_no_id : gmap string json :=
  list_to_map [("username", Str "ann"); ("email", Str "ann@x.com")].

Definition register_empty_id : gmap string json :=
  list_to_map [("id", Str ""); ("username", Str "ann");
               ("email", Str "ann@x.com")].

Definition activity_by (userId action : string) (messagesSent : Z)
    : gmap string json :=
  list_to_map [("userId", Str userId); ("action", Str action);
               ("messagesSent", Num messagesSent)].

Definition activity_1005 : list (gmap string json) :=
  (λ i, activity_by "u1" "start" (Z.of_nat i)) <$> seq 0 1005.

Definition sample_events : list json :=
  [Obj (list_to_map [("action", Str "stop"); ("messagesSent", Num 5)]);
   Obj (list_to_map [("action", Str "start"); ("messagesSent", Num 99)])].

Definition world_ann : world := sample_world [user_ann] [].
Definition world_ann_bob : world := sample_world [user_ann; user_bob] [].
Definition world_stats : world :=
  sample_world [user_ann; user_bob] sample_events.
Definition activity_ghost : gmap string json := activity_by "ghost" "start" 3.
Definition activity_bob : gmap string json := activity_by "u2" "start" 3.

(** ** Vocabulary of the further properties *)

Definition is_string (v : jsval) : bool :=
  match v with
  | Some (Str _) => true
  | _ => false
  end.

Definition is_array (v : json) : bool :=
  match v with
  | Arr _ => true
  | _ => false
  end.

(** The answer of a handler whose body threw. *)
Definition server_error (message : string) : response :=
  {| status := 500; body := Obj {[ "error" := Str message ]} |}.

(** The answers of [GET /api/users] and [GET /api/activity]. *)
Definition users_listing (users : json) : response :=
  {| status := 200; body := Obj {[ "users" := users ]} |}.

Definition activity_listing (activity : json) : response :=
  {| status := 200; body := Obj {[ "activity" := activity ]} |}.

(** The answer of [GET /api/stats] with any value as [totalMessages]. *)
Definition stats_with (totalUsers activeToday : Z) (totalMessages : json)
    : response :=
  {| status := 200;
     body := Obj (<["totalUsers" := Num totalUsers]>
                    (<["activeToday" := Num activeToday]>
                       (<["totalMessages" := totalMessages]> ∅))) |}.

(** The computation [c] leaves the observation [f] of the world as it
    was, however it ends. *)
Definition unchanged {T A} (f : world → T) (c : M A) : Prop :=
  ∀ w, f (c w).2 = f w.

(** No two Users of [us] share an [id] or an [email]. *)
Definition distinct_users (us : list json) : Prop :=
  ∀ i j u v,
    i < j → us !! i = Some u → us !! j = Some v →
    same_user (field u "id") (field u "email") v = false.

(** Both files hold arrays of records, and at most 1000 events. *)
Definition well_formed (w : world) : Prop :=
  ∃ us acts,
    file_at USERS_FILE w = Holds (Denotes (Arr us))
    ∧ forallb is_object us = true
    ∧ file_at ACTIVITY_FILE w = Holds (Denotes (Arr acts))
    ∧ forallb is_object acts = true
    ∧ length acts ≤ 1000.

(** The second half of [POST /api/activity], from [// Log activity] on,
    for the request body [m]. *)
Definition log_phase (m : gmap string json) : M response :=
  let* activity := readActivity in
  let messagesSent' := js_or (m !! "messagesSent") (Num 0) in
  let* timestamp' := or_else (m !! "timestamp") Date_now_toISOString in
  let* activity1 :=
    lift (Array_push activity
            (object_literal
               [("userId", m !! "userId"); ("action", m !! "action");
                ("messagesSent", Some messagesSent');
                ("timestamp", Some timestamp')])) in
  let* len := lift (Array_length activity1) in
  let* activity2 :=
    if (len >? 1000)%Z
    then lift (Array_splice0 activity1 (len - 1000)%Z)
    else ret activity1 in
  writeActivity activity2;;
  ret (res_json (object_literal [("success", Some (Bool true))])).

(** The readings of the clock that a valid activity request for the body
    [m] makes before it builds the event: one, for [lastActive], when
    the request has no truthy [timestamp] and a User of [us] has the
    [userId]; none otherwise. *)
Definition readings_before_event (m : gmap string json) (us : list json)
    : nat :=
  if truthy (m !! "timestamp") then 0
  else match list_find (λ u, has_id (m !! "userId") u = true) us with
       | Some _ => 1
       | None => 0
       end.

(** A stored event whose [messagesSent], when it is a stop event, is
    missing or a primitive: [+] has a string or a number for it. *)
Definition countable_event (a : json) : bool :=
  is_object a && (negb (is_stop a) || primitive (field a "messagesSent")).

(** A number or a string: what a sum of primitives is. *)
Definition scalar (v : json) : bool :=
  match v with
  | Num _ | Str _ => true
  | _ => false
  end.

(** A world without the storage directory. *)
Definition no_storage (c : nat → string) (t : nat) : world :=
  {| DATA_DIR := None; clock := c; ticks := t |}.

(** The sum of the absolute values of the counts of the stop events of
    [l]: a bound of every partial sum of these counts. *)
Definition stop_volume (l : list json) : Z :=
  foldr Z.add 0%Z
    ((λ a, Z.abs (messagesSent_of a)) <$> List.filter is_stop l).

(** A value that is stored as it is, as far as [===] can tell: anything
    but a number that no finite double holds.  (Of [1e400] in a request
    [JSON.parse] makes [Infinity], and [JSON.stringify] writes [null].) *)
Definition exact (v : jsval) : bool :=
  match v with
  | Some (Num z) => finite_double z
  | _ => true
  end.

(** The field [k] of [req.body]. *)
Definition body_field (req_body : jsval) (k : string) : jsval :=
  match req_body with
  | Some b => field b k
  | None => undefined
  end.

(** The [id] and the [email] of the record [u] are stored as they are. *)
Definition exact_identity (u : json) : bool :=
  exact (field u "id") && exact (field u "email").

(** ** Further sample worlds and requests *)

Definition register_carl : gmap string json :=
  list_to_map [("id", Str "u3"); ("username", Str "carl");
               ("email", Str "carl@x.com"); ("nickname", Str "c")].

Definition register_compound : gmap string json :=
  list_to_map [("id", Arr [Num 7]); ("username", Str "dora");
               ("email", Obj ∅)].

Definition world_fresh : world := no_storage sample_clock 0.

Definition world_other_shape : world :=
  {| DATA_DIR := Some {| users_json := Holds (Denotes (Obj ∅));
                         activity_json := Holds (Denotes (Arr [])) |};
     clock := sample_clock;
     ticks := 0 |}.

Definition world_locked_activity : world :=
  {| DATA_DIR := Some {| users_json := Holds (Denotes (Arr [user_ann]));
                         activity_json := Unreadable |};
     clock := sample_clock;
     ticks := 0 |}.

Definition activity_numeric_timestamp : gmap string json :=
  list_to_map [("userId", Str "u1"); ("action", Str "start");
               ("timestamp", Num 1714557600000)].

Definition event_string_count : json :=
  Obj (list_to_map [("action", Str "stop"); ("messagesSent", Str "5")]).

Definition world_string_count : world :=
  sample_world [user_ann] (event_string_count :: sample_events).

Definition events_beyond_safe : list json :=
  [Obj (list_to_map [("action", Str "stop");
                     ("messagesSent", Num 9007199254740992)]);
   Obj (list_to_map [("action", Str "stop"); ("messagesSent", Num 1)]);
   Obj (list_to_map [("action", Str "stop"); ("messagesSent", Num 1)])].

Definition world_beyond_safe : world :=
  sample_world [user_ann] events_beyond_safe.
(** ** Record store *)

Lemma readUsers_stored (w : world) :
  readUsers w = (Ok (stored USERS_FILE w), w).
Proof.
  unfold readUsers, stored, try_catch, bind, fs_readFile, lift, ret.
  destruct (file_at USERS_FILE w) as [| |[|v]]; reflexivity.
Qed.

Lemma readActivity_stored (w : world) :
  readActivity w = (Ok (stored ACTIVITY_FILE w), w).
Proof.
  unfold readActivity, stored, try_catch, bind, fs_readFile, lift, ret.
  destruct (file_at ACTIVITY_FILE w) as [| |[|v]]; reflexivity.
Qed.

(** C5, as amended: [readUsers] and [readActivity] never throw and leave
    the world as it is.  They return the empty array when the file is
    absent, unreadable or not JSON text; when the file is JSON text they
    return the value it denotes, whatever its shape. *)
Theorem load_fail_open (w : world) :
  readUsers w =
    (Ok match file_at USERS_FILE w with
        | Absent | Unreadable | Holds NotJson => Arr []
        | Holds (Denotes v) => v
        end, w)
  ∧ readActivity w =
    (Ok match file_at ACTIVITY_FILE w with
        | Absent | Unreadable | Holds NotJson => Arr []
        | Holds (Denotes v) => v
        end, w).
Proof.
  rewrite readUsers_stored, readActivity_stored. unfold stored.
  split.
  - destruct (file_at USERS_FILE w) as [| |[|v]]; reflexivity.
  - destruct (file_at ACTIVITY_FILE w) as [| |[|v]]; reflexivity.
Qed.

(** C5 as written fails: a users file whose text is the JSON object [{}]
    does not have the expected structure, yet [readUsers] returns that
    object, not an empty sequence, and [POST /api/register] then answers
    500 because [users.find] is not a function. *)
Lemma load_wrong_shape_not_empty :
  let w := {| DATA_DIR := Some {| users_json := Holds (Denotes (Obj ∅));
                                  activity_json := Absent |};
              clock := λ _, "2024-05-01T10:00:00.000Z";
              ticks := 0 |} in
  expected_structure (file_at USERS_FILE w) = false
  ∧ readUsers w = (Ok (Obj ∅), w)
  ∧ (readUsers w).1 ≠ Ok (Arr [])
  ∧ status <$> match (post_register
                        (Some (Obj (list_to_map
                           [("id", Str "u1"); ("username", Str "a");
                            ("email", Str "a@x.com")]))) w).1 with
               | Ok r => Some r
               | Throw _ => None
               end = Some 500%Z.
Proof.
  cbv zeta. split; [reflexivity|]. split; [reflexivity|].
  split; [discriminate|]. vm_compute. reflexivity.
Qed.

(** C8: whatever the disk holds at start, [initializeStorage] returns
    normally, the storage directory exists afterwards, a collection file
    that was missing then holds the empty array, and a file that was
    there, whatever its state, is as it was. *)
Theorem initializeStorage_creates_only_missing (w : world) :
  ∃ d : dir,
    initializeStorage w = (Ok (), with_dir w (Some d))
    ∧ users_json d =
        match file_at USERS_FILE w with
        | Absent => Holds (Denotes (Arr []))
        | f => f
        end
    ∧ activity_json d =
        match file_at ACTIVITY_FILE w with
        | Absent => Holds (Denotes (Arr []))
        | f => f
        end.
Proof.
  destruct w as [[[u a]|] c t];
    unfold initializeStorage, try_catch, bind, ret, fs_mkdir_recursive,
      fs_access, fs_writeFile, file_at, with_dir; simpl.
  - destruct u as [| |tu], a as [| |ta]; simpl; eexists; split;
      try reflexivity; simpl; split; reflexivity.
  - eexists; split; [reflexivity|]. split; reflexivity.
Qed.

(** ** Validation *)

Lemma prop_field (b : json) (k : string) :
  b ≠ Null → prop (Some b) k = Ok (field b k).
Proof. destruct b; intros Hb; try reflexivity. congruence. Qed.

Lemma post_register_invalid (w : world) (b : json) :
  b ≠ Null →
  negb (truthy (field b "id")) || negb (truthy (field b "username"))
    || negb (truthy (field b "email")) = true →
  post_register (Some b) w = (Ok bad_request, w).
Proof.
  intros Hb Hf. unfold post_register, try_catch, bind, lift.
  rewrite !prop_field by done. rewrite Hf. reflexivity.
Qed.

Lemma post_activity_invalid (w : world) (b : json) :
  b ≠ Null →
  negb (truthy (field b "userId")) || negb (truthy (field b "action"))
    = true →
  post_activity (Some b) w = (Ok bad_request, w).
Proof.
  intros Hb Hf. unfold post_activity, try_catch, bind, lift.
  rewrite !prop_field by done. rewrite Hf. reflexivity.
Qed.

(** C3: a register request whose body lacks [id], [username] or [email],
    and an activity request whose body lacks [userId] or [action], is
    answered 400 with the validation error, and the world, hence both
    collections, is left as it was. *)
Theorem missing_field_rejected (w : world) (b : json) :
  b ≠ Null →
  (field b "id" = undefined ∨ field b "username" = undefined
   ∨ field b "email" = undefined →
   post_register (Some b) w = (Ok bad_request, w))
  ∧ (field b "userId" = undefined ∨ field b "action" = undefined →
     post_activity (Some b) w = (Ok bad_request, w)).
Proof.
  intros Hb. split.
  - intros H. apply post_register_invalid; [done|].
    destruct H as [-> | [-> | ->]]; simpl;
      rewrite ?orb_true_r; reflexivity.
  - intros H. apply post_activity_invalid; [done|].
    destruct H as [-> | ->]; simpl; rewrite ?orb_true_r; reflexivity.
Qed.

(** C9: validation tests truthiness, not presence.  The empty string is
    falsy, and a register request whose [id], [username] or [email] is
    falsy, or an activity request whose [userId] or [action] is falsy, is
    answered 400 and leaves the world as it was, exactly as the same
    request with that field removed. *)
Theorem falsy_field_rejected (w : world) (m : gmap string json) (k : string) :
  truthy (m !! k) = false →
  truthy (Some (Str "")) = false
  ∧ (k = "id" ∨ k = "username" ∨ k = "email" →
     post_register (Some (Obj m)) w = (Ok bad_request, w)
     ∧ post_register (Some (Obj (delete k m))) w = (Ok bad_request, w))
  ∧ (k = "userId" ∨ k = "action" →
     post_activity (Some (Obj m)) w = (Ok bad_request, w)
     ∧ post_activity (Some (Obj (delete k m))) w = (Ok bad_request, w)).
Proof.
  intros Hk. split; [reflexivity|]. split; intros Hin.
  - split; apply post_register_invalid; try done;
      destruct Hin as [-> | [-> | ->]]; simpl;
      rewrite ?lookup_delete_eq, ?Hk; simpl;
      rewrite ?orb_true_r; reflexivity.
  - split; apply post_activity_invalid; try done;
      destruct Hin as [-> | ->]; simpl;
      rewrite ?lookup_delete_eq, ?Hk; simpl;
      rewrite ?orb_true_r; reflexivity.
Qed.

(** ** Registration *)

Lemma find_first_objects (p : json → result bool) (q : json → bool)
    (l : list json) :
  (∀ m, p (Obj m) = Ok (q (Obj m))) →
  forallb is_object l = true →
  find_first p l = Ok (List.find q l).
Proof.
  intros Hp. induction l as [|x l IH]; simpl; [done|].
  intros [Hx Hl]%andb_prop. destruct x; try discriminate.
  rewrite Hp. simpl. destruct (q (Obj m)); [done|]. by apply IH.
Qed.

Lemma find_first_match {A} (q : A → bool) (l : list A) (u : A) :
  List.find q l = Some u →
  ∃ l1 l2, l = l1 ++ u :: l2 ∧ q u = true ∧ Forall (λ x, q x = false) l1.
Proof.
  induction l as [|x l IH]; simpl; [done|].
  destruct (q x) eqn:Hx.
  - intros [= ->]. by exists [], l.
  - intros (l1 & l2 & -> & Hu & Hl1)%IH.
    exists (x :: l1), l2. by repeat split; [|constructor].
Qed.

Lemma find_exists {A} (q : A → bool) (l : list A) :
  (∃ u, u ∈ l ∧ q u = true) → ∃ u, List.find q l = Some u.
Proof.
  intros (u & Hu & Hq). destruct (List.find q l) eqn:Hf; [by eauto|].
  apply list_elem_of_In in Hu.
  pose proof (find_none _ _ Hf _ Hu). congruence.
Qed.

Lemma register_predicate (id email : jsval) (m : gmap string json) :
  (let? u_id := prop (Some (Obj m)) "id" in
   if strict_eq u_id id then Ok true
   else let? u_email := prop (Some (Obj m)) "email" in
        Ok (strict_eq u_email email))
  = Ok (same_user id email (Obj m)).
Proof. simpl. by destruct (strict_eq (m !! "id") id). Qed.

Lemma post_register_found (w : world) (m : gmap string json)
    (us : list json) (u : json) :
  valid_register m = true →
  stored USERS_FILE w = Arr us →
  forallb is_object us = true →
  List.find (same_user (m !! "id") (m !! "email")) us = Some u →
  post_register (Some (Obj m)) w = (Ok (already_registered u), w).
Proof.
  intros Hv Hs Hobj Hf. unfold valid_register in Hv.
  apply andb_prop in Hv as [[Hi Hn]%andb_prop He].
  unfold post_register, try_catch, bind, lift. simpl.
  rewrite Hi, Hn, He. simpl. rewrite readUsers_stored, Hs. simpl.
  rewrite (find_first_objects _ (same_user (m !! "id") (m !! "email")));
    [|intros m'; apply register_predicate|done].
  rewrite Hf.
  assert (truthy (Some u) = true) as ->.
  { apply find_some in Hf as [_ Hu]. by destruct u. }
  reflexivity.
Qed.

Lemma post_register_new (w : world) (m : gmap string json) (us : list json) :
  valid_register m = true →
  file_at USERS_FILE w = Holds (Denotes (Arr us)) →
  forallb is_object us = true →
  List.find (same_user (m !! "id") (m !! "email")) us = None →
  ∃ (newUser : json) (w' : world),
    post_register (Some (Obj m)) w = (Ok (registered newUser), w')
    ∧ file_at USERS_FILE w' = Holds (Denotes (Arr (us ++ [newUser])))
    ∧ file_at ACTIVITY_FILE w' = file_at ACTIVITY_FILE w
    ∧ is_object newUser = true
    ∧ field newUser "id" = m !! "id"
    ∧ field newUser "email" = m !! "email".
Proof.
  intros Hv Hs Hobj Hf. unfold valid_register in Hv.
  apply andb_prop in Hv as [[Hi Hn]%andb_prop He].
  unfold post_register, try_catch, bind, lift. simpl.
  rewrite Hi, Hn, He. simpl. rewrite readUsers_stored.
  unfold stored. rewrite Hs. simpl.
  rewrite (find_first_objects _ (same_user (m !! "id") (m !! "email")));
    [|intros m'; apply register_predicate|done].
  rewrite Hf. simpl.
  destruct w as [[d|] c t]; [|discriminate]. unfold file_at in Hs.
  simpl in Hs.
  destruct (m !! "id") as [i|] eqn:Ei; [|discriminate].
  destruct (m !! "username") as [n|] eqn:En; [|discriminate].
  destruct (m !! "email") as [e|] eqn:Ee; [|discriminate].
  unfold or_else, writeUsers, fs_writeFile, Date_now_toISOString, ret.
  destruct (m !! "registeredAt") as [r|]; [destruct (truthy (Some r))|];
    simpl; rewrite Hs; simpl;
    (do 2 eexists; split; [reflexivity|]);
    unfold file_at; simpl; done.
Qed.

Lemma strict_eq_refl (v : jsval) : primitive v = true → strict_eq v v = true.
Proof.
  destruct v as [[| b | z | s | l | m]|]; simpl; try done; intros _.
  - by destruct b.
  - apply Z.eqb_refl.
  - apply String.eqb_refl.
Qed.

Lemma forallb_snoc {A} (q : A → bool) (l : list A) (x : A) :
  forallb q l = true → q x = true → forallb q (l ++ [x]) = true.
Proof. intros Hl Hx. rewrite forallb_app, Hl. simpl. by rewrite Hx. Qed.

Lemma stored_holds (p : path) (w : world) (v : json) :
  file_at p w = Holds (Denotes v) → stored p w = v.
Proof. unfold stored. by intros ->. Qed.

Lemma registered_inj (u u' : json) : registered u = registered u' → u = u'.
Proof.
  intros H. apply (f_equal (λ r, field (body r) "user")) in H.
  simpl in H. rewrite !lookup_insert_ne, !lookup_insert_eq in H by done.
  by injection H.
Qed.

(** Two valid register requests with the same primitive [id], or the same
    primitive [email], add at most one User between them. *)
Lemma register_twice_adds_at_most_one (w : world) (m m' : gmap string json)
    (us : list json) :
  valid_register m = true →
  valid_register m' = true →
  file_at USERS_FILE w = Holds (Denotes (Arr us)) →
  forallb is_object us = true →
  (primitive (m !! "id") = true ∧ m' !! "id" = m !! "id")
  ∨ (primitive (m !! "email") = true ∧ m' !! "email" = m !! "email") →
  ∃ r1 w1 r2 w2 created,
    post_register (Some (Obj m)) w = (Ok r1, w1)
    ∧ post_register (Some (Obj m')) w1 = (Ok r2, w2)
    ∧ file_at USERS_FILE w2 = Holds (Denotes (Arr (us ++ created)))
    ∧ length created ≤ 1
    ∧ (∀ U, r1 = registered U →
         w2 = w1 ∧ ∃ u, u ∈ us ++ [U] ∧ r2 = already_registered u
           ∧ same_user (m' !! "id") (m' !! "email") u = true).
Proof.
  intros Hv Hv' Hs Hobj Hsame.
  destruct (List.find (same_user (m !! "id") (m !! "email")) us)
    as [u|] eqn:Hf.
  - pose proof (post_register_found w m us u Hv (stored_holds _ _ _ Hs)
                  Hobj Hf) as H1.
    destruct (List.find (same_user (m' !! "id") (m' !! "email")) us)
      as [u'|] eqn:Hf'.
    + pose proof (post_register_found w m' us u' Hv'
                    (stored_holds _ _ _ Hs) Hobj Hf') as H2.
      exists (already_registered u), w, (already_registered u'), w, [].
      rewrite app_nil_r. repeat split; try done. simpl; lia.
    + destruct (post_register_new w m' us Hv' Hs Hobj Hf')
        as (U & w2 & H2 & Hs2 & _).
      exists (already_registered u), w, (registered U), w2, [U].
      repeat split; try done.
  - destruct (post_register_new w m us Hv Hs Hobj Hf)
      as (U & w1 & H1 & Hs1 & _ & HU & Hid & Hem).
    assert (same_user (m' !! "id") (m' !! "email") U = true) as HqU.
    { destruct U as [| | | | |mu]; try discriminate.
      simpl in Hid, Hem. simpl. apply orb_true_iff.
      destruct Hsame as [[Hp Heq] | [Hp Heq]]; [left|right]; rewrite Heq.
      - rewrite Hid. by apply strict_eq_refl.
      - rewrite Hem. by apply strict_eq_refl. }
    destruct (find_exists (same_user (m' !! "id") (m' !! "email"))
                (us ++ [U])) as [u Hu].
    { exists U. split; [|done]. apply elem_of_app. right. constructor. }
    pose proof (post_register_found w1 m' (us ++ [U]) u Hv'
                  (stored_holds _ _ _ Hs1)
                  (forallb_snoc _ _ _ Hobj HU) Hu) as H2.
    exists (registered U), w1, (already_registered u), w1, [U].
    split; [done|]. split; [done|]. split; [done|]. split; [done|].
    intros U' <-%registered_inj. split; [done|]. exists u.
    apply find_some in Hu as [Hin Hq].
    apply list_elem_of_In in Hin. done.
Qed.

(** C1: on a stored Users collection, a valid register request for which
    a User with the same [id] or the same [email] exists changes nothing
    and is answered 200 with the message and the record of the first
    such User; and two valid requests with the same [id] or the same
    [email] (a string, or any other primitive) add at most one User
    between them: once the first has created a User, the second changes
    nothing and is answered with an existing record. *)
Theorem register_idempotent (w : world) (m : gmap string json)
    (us : list json) :
  valid_register m = true →
  file_at USERS_FILE w = Holds (Denotes (Arr us)) →
  forallb is_object us = true →
  ((∃ u, u ∈ us ∧ same_user (m !! "id") (m !! "email") u = true) →
   ∃ l1 u l2,
     us = l1 ++ u :: l2
     ∧ same_user (m !! "id") (m !! "email") u = true
     ∧ Forall (λ x, same_user (m !! "id") (m !! "email") x = false) l1
     ∧ post_register (Some (Obj m)) w = (Ok (already_registered u), w))
  ∧ (∀ m' : gmap string json,
       valid_register m' = true →
       (primitive (m !! "id") = true ∧ m' !! "id" = m !! "id")
       ∨ (primitive (m !! "email") = true
          ∧ m' !! "email" = m !! "email") →
       ∃ r1 w1 r2 w2 created,
         post_register (Some (Obj m)) w = (Ok r1, w1)
         ∧ post_register (Some (Obj m')) w1 = (Ok r2, w2)
         ∧ file_at USERS_FILE w2 = Holds (Denotes (Arr (us ++ created)))
         ∧ length created ≤ 1
         ∧ (∀ U, r1 = registered U →
              w2 = w1 ∧ ∃ u, u ∈ us ++ [U] ∧ r2 = already_registered u
                ∧ same_user (m' !! "id") (m' !! "email") u = true)).
Proof.
  intros Hv Hs Hobj. split.
  - intros Hex. destruct (find_exists _ _ Hex) as [u Hf].
    destruct (find_first_match _ _ _ Hf) as (l1 & l2 & Hl & Hq & Hl1).
    exists l1, u, l2. repeat split; try done.
    by apply (post_register_found w m us u Hv (stored_holds _ _ _ Hs)).
  - intros m' Hv' Hsame.
    by apply register_twice_adds_at_most_one.
Qed.

(** ** Activity *)

Lemma find_index_from_objects (p : json → result bool) (q : json → bool)
    (l : list json) (i0 : Z) :
  (∀ m, p (Obj m) = Ok (q (Obj m))) →
  forallb is_object l = true →
  find_index_from p l i0 =
    Ok match list_find (λ u, q u = true) l with
       | Some (n, _) => (i0 + Z.of_nat n)%Z
       | None => (-1)%Z
       end.
Proof.
  intros Hp. revert i0. induction l as [|x l IH]; intros i0; simpl; [done|].
  intros [Hx Hl]%andb_prop. destruct x; try discriminate.
  rewrite Hp. simpl. case_decide as Hq.
  - rewrite Hq. simpl. f_equal. lia.
  - apply not_true_is_false in Hq. rewrite Hq, IH by done.
    destruct (list_find _ l) as [[n u]|]; simpl; [|done]. f_equal. lia.
Qed.

Lemma activity_predicate (userId : jsval) (m : gmap string json) :
  (let? u_id := prop (Some (Obj m)) "id" in Ok (strict_eq u_id userId))
  = Ok (has_id userId (Obj m)).
Proof. reflexivity. Qed.

Lemma forallb_lookup {A} (q : A → bool) (l : list A) (i : nat) (x : A) :
  forallb q l = true → l !! i = Some x → q x = true.
Proof.
  intros Hl Hi. rewrite forallb_forall in Hl. apply Hl.
  apply list_elem_of_In. by eapply list_elem_of_lookup_2.
Qed.

(** *** Rules for running a handler step by step *)

Lemma wp_ret {A} (a : A) (w : world) (Q : result A → world → Prop) :
  Q (Ok a) w → wp (ret a) w Q.
Proof. done. Qed.

Lemma wp_lift {A} (r : result A) (w : world) (Q : result A → world → Prop) :
  Q r w → wp (lift r) w Q.
Proof. done. Qed.

Lemma wp_bind {A B} (c : M A) (k : A → M B) (w : world)
    (Q : result B → world → Prop) :
  wp c w (λ r w', match r with
                  | Ok a => wp (k a) w' Q
                  | Throw e => Q (Throw e) w'
                  end) →
  wp (bind c k) w Q.
Proof. unfold wp, bind. by destruct (c w) as [[a|e] w']. Qed.

Lemma wp_try_catch {A} (c h : M A) (w : world)
    (Q : result A → world → Prop) :
  wp c w (λ r w', match r with
                  | Ok a => Q (Ok a) w'
                  | Throw _ => wp h w' Q
                  end) →
  wp (try_catch c h) w Q.
Proof. unfold wp, try_catch. by destruct (c w) as [[a|e] w']. Qed.

Lemma wp_readUsers (w : world) (Q : result json → world → Prop) :
  Q (Ok (stored USERS_FILE w)) w → wp readUsers w Q.
Proof. unfold wp. by rewrite readUsers_stored. Qed.

Lemma wp_readActivity (w : world) (Q : result json → world → Prop) :
  Q (Ok (stored ACTIVITY_FILE w)) w → wp readActivity w Q.
Proof. unfold wp. by rewrite readActivity_stored. Qed.

Lemma wp_now (w : world) (Q : result json → world → Prop) :
  Q (Ok (Str (clock w (ticks w)))) (tick w) →
  wp Date_now_toISOString w Q.
Proof. done. Qed.

Lemma wp_writeFile (p : path) (t : text) (w : world)
    (Q : result unit → world → Prop) :
  match DATA_DIR w with
  | None => Q (Throw ENOENT) w
  | Some d =>
      match file_in p d with
      | Unreadable => Q (Throw EACCES) w
      | _ => Q (Ok ()) (with_dir w (Some (put_file p (Holds t) d)))
      end
  end →
  wp (fs_writeFile p t) w Q.
Proof.
  unfold wp, fs_writeFile. destruct (DATA_DIR w) as [d|]; [|done].
  by destruct (file_in p d).
Qed.

Lemma wp_run {A} (c : M A) (w : world) (Q : result A → world → Prop) :
  wp c w Q → ∃ r w', c w = (r, w') ∧ Q r w'.
Proof. unfold wp. destruct (c w) as [r w']. by eauto. Qed.

(** One step of a handler: the rule for the construct at the head. *)
Ltac wp_step :=
  lazymatch goal with
  | |- wp (bind _ _) _ _ => apply wp_bind
  | |- wp (try_catch _ _) _ _ => apply wp_try_catch
  | |- wp (ret _) _ _ => apply wp_ret
  | |- wp (lift _) _ _ => apply wp_lift
  | |- wp readUsers _ _ => apply wp_readUsers
  | |- wp readActivity _ _ => apply wp_readActivity
  | |- wp Date_now_toISOString _ _ => apply wp_now
  | |- wp (writeUsers _) _ _ => apply wp_writeFile
  | |- wp (writeActivity _) _ _ => apply wp_writeFile
  | |- wp (fs_writeFile _ _) _ _ => apply wp_writeFile
  end.

Lemma stored_users_found (w : world) (us : list json) (i : nat) (u : json) :
  stored USERS_FILE w = Arr us → us !! i = Some u →
  file_at USERS_FILE w = Holds (Denotes (Arr us)).
Proof.
  unfold stored. intros Hs Hi.
  destruct (file_at USERS_FILE w) as [| |[|v]]; simplify_eq; done.
Qed.

Lemma prop_obj (m : gmap string json) (k : string) :
  prop (Some (Obj m)) k = Ok (m !! k).
Proof. reflexivity. Qed.

Lemma wp_or_else_now (a : jsval) (w : world)
    (Q : result json → world → Prop) :
  (truthy a = true → Q (Ok (js_or a (Str (clock w (ticks w))))) w) →
  (truthy a = false → Q (Ok (js_or a (Str (clock w (ticks w))))) (tick w)) →
  wp (or_else a Date_now_toISOString) w Q.
Proof.
  unfold or_else, js_or. destruct a as [v|].
  - destruct (truthy (Some v)); intros H1 H2;
      [apply wp_ret, H1|apply H2]; done.
  - intros _ H2. by apply H2.
Qed.

Lemma wp_wand {A} (c : M A) (w : world) (Q Q' : result A → world → Prop) :
  wp c w Q → (∀ r w', Q r w' → Q' r w') → wp c w Q'.
Proof. unfold wp. auto. Qed.

Ltac wp_go := repeat (wp_step; cbv beta iota).

(** A valid activity request on a stored Users collection: first the
    update of the users file, then the log of the event, whatever the
    state of the activity file. *)
Lemma post_activity_run (w : world) (m : gmap string json) (us : list json) :
  valid_activity m = true →
  stored USERS_FILE w = Arr us →
  forallb is_object us = true →
  wp (post_activity (Some (Obj m))) w (activity_post m us w).
Proof.
  intros Hv Hs Hobj. unfold valid_activity in Hv.
  apply andb_prop in Hv as [Hu Hact].
  unfold post_activity. rewrite !prop_obj.
  wp_go. rewrite Hu, Hact. simpl negb. simpl orb. cbv iota.
  wp_go. rewrite Hs. unfold Array_findIndex.
  rewrite (find_index_from_objects _ (has_id (m !! "userId")))
    by (done || apply activity_predicate).
  wp_go.
  eapply wp_wand with
    (Q := λ r w1, r = Ok () ∧ clock w1 = clock w
                  ∧ file_at ACTIVITY_FILE w1 = file_at ACTIVITY_FILE w
                  ∧ users_touched m us w w1).
  - unfold users_touched.
    destruct (list_find _ us) as [[i u]|] eqn:Hf.
    + apply list_find_Some in Hf as (Hi & Hq & _).
      pose proof (stored_users_found _ _ _ _ Hs Hi) as Hfile.
      pose proof (forallb_lookup _ _ _ _ Hobj Hi) as Hio.
      destruct u as [| | | | |mu]; try discriminate.
      replace (0 + Z.of_nat i)%Z with (Z.of_nat i) by lia.
      destruct (Z.eqb_spec (Z.of_nat i) (-1)) as [?|_]; [lia|].
      simpl negb. cbv iota.
      unfold Array_set_prop_at. rewrite Nat2Z.id, Hi. simpl rbind.
      destruct w as [[[fu fa]|] c t]; [|discriminate].
      unfold file_at in Hfile. simpl in Hfile. subst fu.
      wp_step. apply wp_or_else_now; intros Hts; wp_go; simpl;
        (split; [done|]); (split; [done|]); (split; [done|]); by exists t.
    + simpl negb. cbv iota. by wp_go.
  - intros r w1 (-> & Hc & Ha & Hus).
    eapply wp_wand with
      (Q := λ r w', clock w' = clock w1
              ∧ file_at USERS_FILE w' = file_at USERS_FILE w1
              ∧ ∀ old,
                  file_at ACTIVITY_FILE w1 = Holds (Denotes (Arr old)) →
                  r = Ok logged
                  ∧ ∃ k, file_at ACTIVITY_FILE w' =
                      Holds (Denotes
                        (Arr (retained
                          (old ++ [event_of m (stamp m (clock w1 k))]))))).
    + wp_go. apply wp_or_else_now; intros Hts; wp_go.
      all: change (object_literal (("userId", _) :: _))
             with (event_of m (stamp m (clock w1 (ticks w1)))).
      all: set (ev := event_of _ _).
      all: destruct w1 as [[[fu1 fa1]|] c1 t1]; unfold stored, file_at;
        simpl DATA_DIR; cbv iota; simpl file_in.
      all: try destruct fa1 as [| |[|[]]]; simpl Array_push; cbv iota.
      all: try by (split; [done|split; [done|intros old [=]]]).
      all: wp_go; simpl Array_length; cbv iota; wp_go.
      all: destruct (Z.gtb_spec (Z.of_nat (length (l ++ [ev]))) 1000)
             as [Hlen|Hlen]; cbv iota; wp_go; unfold Array_splice0;
        cbv iota; wp_go; cbn [DATA_DIR tick file_in activity_json]; wp_go;
        cbn [DATA_DIR with_dir tick file_at file_in put_file users_json
               activity_json clock ticks JSON_stringify];
        (split; [done|split; [done|]]); intros old [= <-];
        (split; [done|]); exists t1;
        change (event_of m (stamp m (c1 t1))) with ev; unfold retained;
        do 3 f_equal.
      all: try (f_equal; lia).
      all: replace (length (l ++ [ev]) - 1000) with 0 by lia; done.
    + intros r w' (Hc' & Hu' & Hold).
      assert (activity_post m us w
                match r with
                | Ok a => Ok a
                | Throw _ =>
                    Ok (res_status_json 500
                          (object_literal
                             [("error", Some (Str "Failed to log activity"))]))
                end w') as Hpost.
      { split; [congruence|]. split.
        - unfold users_touched in *. rewrite Hu'. done.
        - split; [destruct r; eauto|].
          intros old Hold'. rewrite <- Ha in Hold'.
          destruct (Hold old Hold') as [-> [k Hk]]. split; [done|].
          exists k. by rewrite <- Hc. }
      by destruct r.
Qed.

(** *** Retention *)

Lemma last_n_drop {A} (n : nat) (l : list A) :
  last_n n l = drop (length l - n) l.
Proof.
  unfold last_n. by rewrite take_reverse, reverse_involutive.
Qed.

Lemma retained_snoc (l : list json) (x : json) :
  retained (l ++ [x]) =
    last_n (Nat.min (length l + 1) 1000) (l ++ [x]).
Proof.
  rewrite last_n_drop. unfold retained. rewrite length_app. simpl.
  f_equal. lia.
Qed.

Lemma retained_length (l : list json) :
  length (retained l) = Nat.min (length l) 1000.
Proof. unfold retained. rewrite length_drop. lia. Qed.

Lemma retained_ends (l : list json) (x : json) :
  last (retained (l ++ [x])) = Some x.
Proof.
  unfold retained. rewrite length_app. simpl.
  destruct (decide (length l + 1 - 1000 ≤ length l)) as [Hle|Hgt].
  - rewrite drop_app_le by done. apply last_snoc.
  - lia.
Qed.

Lemma retained_app (l k : list json) :
  retained (retained l ++ k) = retained (l ++ k).
Proof.
  unfold retained at 2.
  destruct (decide (length l ≤ 1000)) as [Hle|Hgt].
  - replace (length l - 1000) with 0 by lia. done.
  - rewrite <- (take_drop (length l - 1000) l) at 3.
    set (a := take (length l - 1000) l). set (r := drop _ l).
    assert (length a = length l - 1000) as Ha
      by (unfold a; rewrite length_take; lia).
    assert (length r = 1000) as Hr
      by (unfold r; rewrite length_drop; lia).
    unfold retained. rewrite <- (assoc_L (++)), !length_app, Ha, Hr.
    replace (length l - 1000 + (1000 + length k) - 1000)
      with (length a + (1000 + length k - 1000)) by lia.
    by rewrite drop_app_add.
Qed.

(** *** Outcome of one activity request *)

Lemma post_activity_outcome (w : world) (m : gmap string json)
    (us : list json) :
  valid_activity m = true →
  stored USERS_FILE w = Arr us →
  forallb is_object us = true →
  ∃ r w', post_activity (Some (Obj m)) w = (r, w')
          ∧ activity_post m us w r w'.
Proof. intros Hv Hs Hobj. by apply wp_run, post_activity_run. Qed.

Lemma forallb_touch (us : list json) (i : nat) (t u : json) :
  forallb is_object us = true → is_object u = true →
  forallb is_object (<[i := touch t u]> us) = true.
Proof.
  intros Hus Hu. apply forallb_forall. intros x Hx%list_elem_of_In.
  apply list_elem_of_lookup in Hx as [j Hj].
  destruct (decide (i = j)) as [->|Hne].
  - destruct (decide (j < length us)) as [Hlt|Hge].
    + rewrite list_lookup_insert_eq in Hj by done.
      injection Hj as <-. by destruct u.
    + rewrite list_insert_ge in Hj by lia. by eapply forallb_lookup.
  - rewrite list_lookup_insert_ne in Hj by done. by eapply forallb_lookup.
Qed.

Lemma users_touched_objects (m : gmap string json) (us : list json)
    (w w' : world) :
  stored USERS_FILE w = Arr us →
  forallb is_object us = true →
  users_touched m us w w' →
  ∃ us', stored USERS_FILE w' = Arr us' ∧ forallb is_object us' = true.
Proof.
  intros Hs Hobj. unfold users_touched.
  destruct (list_find _ us) as [[i u]|] eqn:Hf.
  - intros [k Hk]. eexists. split; [by apply stored_holds|].
    apply list_find_Some in Hf as (Hi & _ & _).
    apply forallb_touch; [done|]. by eapply forallb_lookup.
  - intros Hsame. exists us. split; [|done].
    unfold stored in *. by rewrite Hsame.
Qed.

(** After any number of valid activity requests the file holds the last
    1000 of the events it held and of those recorded since, oldest
    first. *)
Lemma run_activity_retains (bodies : list (gmap string json)) :
  ∀ (w : world) (us old : list json),
    forallb valid_activity bodies = true →
    stored USERS_FILE w = Arr us →
    forallb is_object us = true →
    file_at ACTIVITY_FILE w = Holds (Denotes (Arr old)) →
    length old ≤ 1000 →
    ∃ evs,
      Forall2 (λ m ev, ∃ t, ev = event_of m t) bodies evs
      ∧ file_at ACTIVITY_FILE (run_activity bodies w) =
          Holds (Denotes (Arr (retained (old ++ evs)))).
Proof.
  induction bodies as [|m bodies IH]; intros w us old Hv Hs Hobj Ha Hlen.
  - exists []. split; [constructor|]. simpl. rewrite Ha, app_nil_r.
    unfold retained. by replace (length old - 1000) with 0 by lia.
  - simpl in Hv. apply andb_prop in Hv as [Hm Hv].
    destruct (post_activity_outcome w m us Hm Hs Hobj)
      as (r & w1 & Hrun & Hc & Hus & _ & Hold).
    destruct (Hold old Ha) as [-> [k Hk]].
    destruct (users_touched_objects m us w w1 Hs Hobj Hus)
      as (us1 & Hs1 & Hobj1).
    destruct (IH w1 us1 _ Hv Hs1 Hobj1 Hk) as (evs & Hevs & Hfin).
    { rewrite retained_length. lia. }
    exists (event_of m (stamp m (clock w k)) :: evs).
    split; [constructor; by eauto|].
    unfold run_activity. simpl. rewrite Hrun. simpl.
    fold (run_activity bodies w1).
    by rewrite Hfin, retained_app, <- (assoc_L (++)).
Qed.

(** C2: on any stored ActivityEvents collection of [n] entries, a valid
    activity request is answered 200 and leaves in the file exactly the
    last [min (n + 1) 1000] entries of the old collection followed by
    the new event, so that entries leave from the front, oldest first.
    After 1005 valid requests on an empty collection the file holds 1000
    events, those of the requests 6 to 1005 in order, and none of the
    events of the first five requests when the events are pairwise
    distinct. *)
Theorem activity_retention (w : world) (us old : list json) :
  stored USERS_FILE w = Arr us →
  forallb is_object us = true →
  file_at ACTIVITY_FILE w = Holds (Denotes (Arr old)) →
  (∀ m : gmap string json,
     valid_activity m = true →
     ∃ w' k,
       post_activity (Some (Obj m)) w = (Ok logged, w')
       ∧ file_at ACTIVITY_FILE w' =
           Holds (Denotes
             (Arr (last_n (Nat.min (length old + 1) 1000)
                     (old ++ [event_of m (stamp m (clock w k))])))))
  ∧ (∀ bodies : list (gmap string json),
       old = [] →
       length bodies = 1005 →
       forallb valid_activity bodies = true →
       ∃ evs,
         Forall2 (λ m ev, ∃ t, ev = event_of m t) bodies evs
         ∧ file_at ACTIVITY_FILE (run_activity bodies w) =
             Holds (Denotes (Arr (drop 5 evs)))
         ∧ length (drop 5 evs) = 1000
         ∧ (NoDup evs → ∀ e, e ∈ take 5 evs → e ∉ drop 5 evs)).
Proof.
  intros Hs Hobj Ha. split.
  - intros m Hm.
    destruct (post_activity_outcome w m us Hm Hs Hobj)
      as (r & w' & Hrun & _ & _ & _ & Hold).
    destruct (Hold old Ha) as [-> [k Hk]].
    exists w', k. split; [done|]. by rewrite Hk, retained_snoc.
  - intros bodies -> Hlen Hv.
    destruct (run_activity_retains bodies w us [] Hv Hs Hobj Ha)
      as (evs & Hevs & Hfin); [simpl; lia|].
    assert (length evs = 1005) as Hl
      by (by rewrite <- (Forall2_length _ _ _ Hevs)).
    exists evs. split; [done|]. simpl in Hfin. unfold retained in Hfin.
    rewrite Hl in Hfin. split; [done|].
    split; [rewrite length_drop; lia|].
    intros Hnd e Hin Hin'.
    rewrite <- (take_drop 5 evs) in Hnd.
    apply NoDup_app in Hnd as (_ & Hdisj & _). by eapply Hdisj.
Qed.

(** C6: a valid activity request whose [userId] is the [id] of no stored
    User is answered 200 like any other: the users file is left as it
    was, and the activity file holds the old events with the new one at
    the end, cut to the last 1000. *)
Theorem unknown_user_tolerated (w : world) (m : gmap string json)
    (us old : list json) :
  valid_activity m = true →
  stored USERS_FILE w = Arr us →
  forallb is_object us = true →
  Forall (λ u, has_id (m !! "userId") u = false) us →
  file_at ACTIVITY_FILE w = Holds (Denotes (Arr old)) →
  ∃ w' k,
    post_activity (Some (Obj m)) w = (Ok logged, w')
    ∧ file_at USERS_FILE w' = file_at USERS_FILE w
    ∧ file_at ACTIVITY_FILE w' =
        Holds (Denotes
          (Arr (retained (old ++ [event_of m (stamp m (clock w k))]))))
    ∧ last (retained (old ++ [event_of m (stamp m (clock w k))]))
        = Some (event_of m (stamp m (clock w k))).
Proof.
  intros Hm Hs Hobj Hnone Ha.
  destruct (post_activity_outcome w m us Hm Hs Hobj)
    as (r & w' & Hrun & _ & Hus & _ & Hold).
  destruct (Hold old Ha) as [-> [k Hk]].
  exists w', k. split; [done|]. split; [|split; [done|apply retained_ends]].
  unfold users_touched in Hus.
  assert (list_find (λ u, has_id (m !! "userId") u = true) us = None) as Hf.
  { apply list_find_None. eapply Forall_impl; [exact Hnone|].
    simpl. intros u Hu. by rewrite Hu. }
  by rewrite Hf in Hus.
Qed.

(** C10: a valid activity request whose [userId] is the [id] of a stored
    User rewrites the users file with one change: the first such User has
    [lastActive] set to the time stamped by the request.  The collection
    keeps its length and its order, every other User is as it was, and so
    is every other field of that User. *)
Theorem activity_touches_only_lastActive (w : world) (m : gmap string json)
    (us : list json) :
  valid_activity m = true →
  stored USERS_FILE w = Arr us →
  forallb is_object us = true →
  (∃ u, u ∈ us ∧ has_id (m !! "userId") u = true) →
  ∃ (resp : response) (w' : world) (i : nat) (mu : gmap string json)
    (t : json) (us' : list json),
    post_activity (Some (Obj m)) w = (Ok resp, w')
    ∧ us !! i = Some (Obj mu)
    ∧ has_id (m !! "userId") (Obj mu) = true
    ∧ (∀ j u, j < i → us !! j = Some u →
              has_id (m !! "userId") u = false)
    ∧ (∃ k, t = stamp m (clock w k))
    ∧ file_at USERS_FILE w' = Holds (Denotes (Arr us'))
    ∧ length us' = length us
    ∧ us' !! i = Some (Obj (<["lastActive" := t]> mu))
    ∧ (∀ j, j ≠ i → us' !! j = us !! j)
    ∧ (∀ k, k ≠ "lastActive" →
            (<["lastActive" := t]> mu) !! k = mu !! k)
    ∧ (<["lastActive" := t]> mu) !! "lastActive" = Some t.
Proof.
  intros Hm Hs Hobj (u0 & Hin & Hid).
  destruct (post_activity_outcome w m us Hm Hs Hobj)
    as (r & w' & Hrun & _ & Hus & [resp ->] & _).
  unfold users_touched in Hus.
  destruct (list_find _ us) as [[i u]|] eqn:Hf.
  - apply list_find_Some in Hf as (Hi & Hq & Hfirst).
    destruct Hus as [k Hk].
    pose proof (forallb_lookup _ _ _ _ Hobj Hi) as Hio.
    destruct u as [| | | | |mu]; try discriminate.
    exists resp, w', i, mu, (stamp m (clock w k)),
      (<[i := Obj (<["lastActive" := stamp m (clock w k)]> mu)]> us).
    split; [done|]. split; [done|]. split; [done|]. split.
    { intros j u Hj Hu. apply not_true_is_false. by eapply Hfirst. }
    split; [by eauto|]. split; [done|]. split; [apply length_insert|].
    split; [apply list_lookup_insert_eq; by eapply lookup_lt_Some|].
    split; [intros j Hj; by apply list_lookup_insert_ne|].
    split; [intros k' Hk'; by apply lookup_insert_ne|].
    apply lookup_insert_eq.
  - apply list_find_None in Hf. rewrite Forall_forall in Hf.
    by destruct (Hf u0 Hin).
Qed.

(** ** Statistics *)

Lemma split_on_head (s : string) :
  head (split_on "T" s) = Some (date_part s).
Proof.
  induction s as [|a s IH]; simpl; [done|].
  destruct (Ascii.eqb a "T"); [done|].
  destruct (split_on "T" s) as [|h t]; simpl in *; congruence.
Qed.

Lemma date_part_prefix (d rest : string) :
  date_part d = d → date_part (d +:+ "T" +:+ rest) = d.
Proof.
  induction d as [|a d IH]; simpl; [done|].
  destruct (Ascii.eqb a "T"); [done|].
  intros [= Hd]. by rewrite IH.
Qed.

Lemma filter_list_pure (p : json → result bool) (q : json → bool)
    (l : list json) :
  Forall (λ x, p x = Ok (q x)) l →
  filter_list p l = Ok (List.filter q l).
Proof.
  induction 1 as [|x l Hx _ IH]; simpl; [done|].
  by rewrite Hx, IH.
Qed.

Lemma length_filter_count (q : json → bool) (l : list json) :
  Z.of_nat (length (List.filter q l)) = count_if q l.
Proof.
  induction l as [|x l IH]; simpl; [done|].
  destruct (q x); simpl; lia.
Qed.

Lemma active_predicate (today : string) (u : json) :
  user_record u = true →
  (let? u_lastActive := prop (Some u) "lastActive" in
   let? lastActive :=
     if truthy u_lastActive
     then split_T_first u_lastActive
     else Ok (Some Null) in
   Ok (strict_eq lastActive (Some (Str today))))
  = Ok (active_on today u).
Proof.
  unfold user_record, active_on. destruct u as [| | | | |mu]; try done.
  simpl. destruct (mu !! "lastActive") as [[| [] | z | s | |]|]; try done.
  - simpl. by destruct (z =? 0)%Z.
  - intros _. simpl. destruct (String.eqb_spec s "") as [->|Hs]; [done|].
    simpl. by rewrite split_on_head.
Qed.

Lemma stop_predicate (a : json) :
  is_object a = true →
  (let? a_action := prop (Some a) "action" in
   Ok (strict_eq a_action (Some (Str "stop"))))
  = Ok (is_stop a).
Proof. by destruct a. Qed.

Lemma to_double_safe (z : Z) : (Z.abs z < 2 ^ 53)%Z → to_double z = z.
Proof.
  intros Hz. unfold to_double. cbv zeta.
  destruct (Z.ltb_spec (Z.abs z) (2 ^ 53)); [done|lia].
Qed.

Lemma volume_nonneg (l : list json) :
  (0 ≤ foldr Z.add 0 ((λ a, Z.abs (messagesSent_of a)) <$> l))%Z.
Proof.
  induction l as [|a l IH]; [done|].
  change (0 ≤ Z.abs (messagesSent_of a)
              + foldr Z.add 0 ((λ a, Z.abs (messagesSent_of a)) <$> l))%Z.
  lia.
Qed.

(** The reduction of stop events that carry numbers yields a number; it
    is their sum when no partial sum leaves the safe integers. *)
Lemma reduce_messagesSent (stops : list json) (acc : Z) :
  Forall (λ a, event_record a = true ∧ is_stop a = true) stops →
  ∃ total,
    reduce_list
      (λ sum a, let? a_messagesSent := prop (Some a) "messagesSent" in
                js_add sum (js_or a_messagesSent (Num 0)))
      stops (Num acc)
    = Ok (Num total)
    ∧ ((Z.abs acc
        + foldr Z.add 0 ((λ a, Z.abs (messagesSent_of a)) <$> stops)
        ≤ 2 ^ 53 - 1)%Z →
       total = (acc + foldr Z.add 0 (messagesSent_of <$> stops))%Z).
Proof.
  intros Hl. revert acc.
  induction Hl as [|a l [Ha Hstop] _ IH]; intros acc.
  - exists acc. split; [done|]. intros _. simpl. lia.
  - unfold event_record in Ha. rewrite Hstop in Ha.
    apply andb_prop in Ha as [Ho Ha].
    assert ((let? a_messagesSent := prop (Some a) "messagesSent" in
             js_add (Num acc) (js_or a_messagesSent (Num 0)))
            = Ok (Num (to_double (acc + messagesSent_of a)))) as Hstep.
    { unfold messagesSent_of. destruct a as [| | | | |ma]; try done.
      simpl in *.
      destruct (ma !! "messagesSent") as [[| | z | | |]|]; try done.
      simpl. by destruct (Z.eqb_spec z 0) as [->|Hz]. }
    cbn [reduce_list]. rewrite Hstep. cbn [rbind].
    destruct (IH (to_double (acc + messagesSent_of a)))
      as (total & Hred & Hexact).
    exists total. split; [done|]. intros Hbound.
    cbn [fmap list_fmap foldr] in Hbound |- *.
    pose proof (volume_nonneg l) as Hnn.
    rewrite to_double_safe in Hexact by lia.
    rewrite Hexact by lia. lia.
Qed.

Lemma get_stats_run (w : world) (us acts : list json) :
  stored USERS_FILE w = Arr us →
  stored ACTIVITY_FILE w = Arr acts →
  forallb user_record us = true →
  forallb event_record acts = true →
  ∃ totalMessages,
    get_stats w =
      (Ok (stats (Z.of_nat (length us))
             (count_if (active_on (date_part (clock w (ticks w)))) us)
             totalMessages),
       tick w)
    ∧ ((stop_volume acts ≤ 2 ^ 53 - 1)%Z →
       totalMessages = total_stop_messages acts).
Proof.
  intros Hs Ha Hus Hacts.
  rewrite forallb_forall in Hus. rewrite forallb_forall in Hacts.
  destruct (reduce_messagesSent (List.filter is_stop acts) 0)
    as (total & Hred & Hexact).
  { apply Forall_forall. intros a Ha'%list_elem_of_In.
    apply filter_In in Ha' as [Ha' Hstop]. split; [|done].
    by apply Hacts. }
  exists total. split; [|intros Hb; apply Hexact; exact Hb].
  enough (wp get_stats w (λ r w',
    r = Ok (stats (Z.of_nat (length us))
              (count_if (active_on (date_part (clock w (ticks w)))) us)
              total)
    ∧ w' = tick w)) as Hwp.
  { unfold wp in Hwp. destruct (get_stats w) as [r w'].
    simpl in Hwp. by destruct Hwp as [-> ->]. }
  unfold get_stats. wp_go. rewrite Hs, Ha.
  simpl split_T_first. rewrite split_on_head. simpl fmap. wp_go.
  unfold Array_filter.
  rewrite (filter_list_pure _
             (active_on (date_part (clock w (ticks w))))).
  2:{ apply Forall_forall. intros u Hu%list_elem_of_In.
      by apply active_predicate, Hus. }
  wp_go. rewrite (filter_list_pure _ is_stop).
  2:{ apply Forall_forall. intros a Ha'%list_elem_of_In.
      apply stop_predicate. specialize (Hacts a Ha').
      unfold event_record in Hacts. by apply andb_prop in Hacts as [? _]. }
  wp_go. rewrite Hred.
  wp_go. simpl Array_length. cbv iota. wp_go.
  rewrite length_filter_count. done.
Qed.

(** C4: on stored collections whose stop events carry counts that sum,
    in absolute value, to a safe integer, [GET /api/stats] is answered
    200 with [totalMessages] equal to the sum of [messagesSent] over the
    events whose [action] is ["stop"].  The other events are not summed,
    whatever [messagesSent] they carry. *)
Theorem stats_totalMessages (w : world) (us acts : list json) :
  stored USERS_FILE w = Arr us →
  stored ACTIVITY_FILE w = Arr acts →
  forallb user_record us = true →
  forallb event_record acts = true →
  (stop_volume acts ≤ 2 ^ 53 - 1)%Z →
  ∃ totalUsers activeToday w',
    get_stats w =
      (Ok (stats totalUsers activeToday
             (foldr Z.add 0%Z
                (messagesSent_of <$> List.filter is_stop acts))), w').
Proof.
  intros Hs Ha Hus Hacts Hsafe.
  destruct (get_stats_run w us acts Hs Ha Hus Hacts)
    as (total & Hrun & Hexact).
  rewrite (Hexact Hsafe) in Hrun. do 3 eexists. exact Hrun.
Qed.

(** C7: on stored collections, [GET /api/stats] is answered 200 with
    [activeToday] equal to the number of Users whose [lastActive], cut
    before its first ['T'], equals the current timestamp cut likewise;
    for a timestamp made of a date, a ['T'] and a time, that is its
    date.  A User of another day, or without [lastActive], is not
    counted. *)
Theorem stats_activeToday (w : world) (us acts : list json) :
  stored USERS_FILE w = Arr us →
  stored ACTIVITY_FILE w = Arr acts →
  forallb user_record us = true →
  forallb event_record acts = true →
  (∃ totalUsers totalMessages w',
     get_stats w =
       (Ok (stats totalUsers
              (count_if (active_on (date_part (clock w (ticks w)))) us)
              totalMessages), w'))
  ∧ (∀ date time : string,
       date_part date = date →
       date_part (date +:+ "T" +:+ time) = date)
  ∧ (∀ today u,
       active_on today u = true ↔
       ∃ s, field u "lastActive" = Some (Str s) ∧ s ≠ ""
            ∧ date_part s = today).
Proof.
  intros Hs Ha Hus Hacts. split; [|split].
  - destruct (get_stats_run w us acts Hs Ha Hus Hacts)
      as (total & Hrun & _).
    do 3 eexists. exact Hrun.
  - apply date_part_prefix.
  - intros today u. unfold active_on. split.
    + destruct (field u "lastActive") as [[| | | s | |]|]; try done.
      intros [Hne Heq]%andb_prop. exists s.
      apply String.eqb_eq in Heq.
      destruct (String.eqb_spec s ""); by simplify_eq.
    + intros (s & -> & Hne & <-). rewrite String.eqb_refl.
      by destruct (String.eqb_spec s "").
Qed.

(** ** The properties on sample inputs *)

Lemma register_idempotent_sample :
  valid_register register_u1 = true
  ∧ (∃ u, post_register (Some (Obj register_u1)) world_ann
          = (Ok (already_registered u), world_ann))
  ∧ ∃ r1 w1 r2 w2 created,
      post_register (Some (Obj register_u1)) world_ann = (Ok r1, w1)
      ∧ post_register (Some (Obj register_u1)) w1 = (Ok r2, w2)
      ∧ file_at USERS_FILE w2
        = Holds (Denotes (Arr ([user_ann] ++ created)))
      ∧ length created ≤ 1.
Proof.
  destruct (register_idempotent world_ann register_u1 [user_ann])
    as [Hfound Htwice]; [reflexivity..|].
  split; [reflexivity|]. split.
  - destruct Hfound as (l1 & u & l2 & _ & _ & _ & Hrun).
    + exists user_ann. split; [constructor|reflexivity].
    + by exists u.
  - destruct (Htwice register_u1)
      as (r1 & w1 & r2 & w2 & created & H1 & H2 & H3 & H4 & _).
    + reflexivity.
    + left. split; reflexivity.
    + by exists r1, w1, r2, w2, created.
Defined.

Lemma activity_retention_sample :
  length activity_1005 = 1005
  ∧ forallb valid_activity activity_1005 = true
  ∧ (∃ w', post_activity (Some (Obj activity_bob)) world_ann
           = (Ok logged, w'))
  ∧ ∃ evs,
      Forall2 (λ m ev, ∃ t, ev = event_of m t) activity_1005 evs
      ∧ file_at ACTIVITY_FILE (run_activity activity_1005 world_ann)
        = Holds (Denotes (Arr (drop 5 evs)))
      ∧ length (drop 5 evs) = 1000
      ∧ (NoDup evs → ∀ e, e ∈ take 5 evs → e ∉ drop 5 evs).
Proof.
  assert (length activity_1005 = 1005) as Hlen by (vm_compute; reflexivity).
  assert (forallb valid_activity activity_1005 = true) as Hvalid
    by (vm_compute; reflexivity).
  destruct (activity_retention world_ann [user_ann] [])
    as [Hone Hmany]; [reflexivity..|].
  split; [exact Hlen|]. split; [exact Hvalid|]. split.
  - destruct (Hone activity_bob) as (w' & k & Hrun & _); [reflexivity|].
    by exists w'.
  - apply Hmany; [reflexivity|exact Hlen|exact Hvalid].
Defined.

Lemma missing_field_rejected_sample :
  field (Obj register_no_id) "id" = undefined
  ∧ field (Obj register_no_id) "userId" = undefined
  ∧ post_register (Some (Obj register_no_id)) world_ann
    = (Ok bad_request, world_ann)
  ∧ post_activity (Some (Obj register_no_id)) world_ann
    = (Ok bad_request, world_ann).
Proof.
  destruct (missing_field_rejected world_ann (Obj register_no_id))
    as [Hreg Hact]; [discriminate|].
  split; [reflexivity|]. split; [reflexivity|]. split.
  - apply Hreg. left. reflexivity.
  - apply Hact. left. reflexivity.
Defined.

Lemma stats_totalMessages_sample :
  foldr Z.add 0%Z (messagesSent_of <$> List.filter is_stop sample_events)
    = 5%Z
  ∧ (stop_volume sample_events ≤ 2 ^ 53 - 1)%Z
  ∧ ∃ totalUsers activeToday w',
      get_stats world_stats
      = (Ok (stats totalUsers activeToday
               (foldr Z.add 0%Z
                  (messagesSent_of <$> List.filter is_stop sample_events))),
         w').
Proof.
  assert (stop_volume sample_events ≤ 2 ^ 53 - 1)%Z as Hsafe
    by (vm_compute; discriminate).
  split; [reflexivity|]. split; [exact Hsafe|].
  apply (stats_totalMessages world_stats [user_ann; user_bob] sample_events);
    [reflexivity..|exact Hsafe].
Defined.

Lemma unknown_user_tolerated_sample :
  Forall (λ u, has_id (activity_ghost !! "userId") u = false) [user_ann]
  ∧ ∃ w', post_activity (Some (Obj activity_ghost)) world_ann
          = (Ok logged, w')
          ∧ file_at USERS_FILE w' = file_at USERS_FILE world_ann.
Proof.
  assert (Forall (λ u, has_id (activity_ghost !! "userId") u = false)
            [user_ann]) as Hnone
    by (constructor; [reflexivity|constructor]).
  split; [exact Hnone|].
  destruct (unknown_user_tolerated world_ann activity_ghost [user_ann] [])
    as (w' & k & Hrun & Husers & _); [reflexivity..|exact Hnone|reflexivity|].
  by exists w'.
Defined.

Lemma stats_activeToday_sample :
  count_if (active_on (date_part (sample_clock 0))) [user_ann; user_bob]
    = 1%Z
  ∧ ∃ totalUsers totalMessages w',
      get_stats world_stats
      = (Ok (stats totalUsers
               (count_if (active_on (date_part (sample_clock 0)))
                  [user_ann; user_bob])
               totalMessages), w').
Proof.
  split; [reflexivity|].
  destruct (stats_activeToday world_stats [user_ann; user_bob] sample_events)
    as [Hrun _]; [reflexivity..|].
  exact Hrun.
Defined.

Lemma falsy_field_rejected_sample :
  register_empty_id !! "id" = Some (Str "")
  ∧ post_register (Some (Obj register_empty_id)) world_ann
    = (Ok bad_request, world_ann)
  ∧ post_register (Some (Obj (delete "id" register_empty_id))) world_ann
    = (Ok bad_request, world_ann).
Proof.
  split; [reflexivity|].
  destruct (falsy_field_rejected world_ann register_empty_id "id")
    as (_ & Hreg & _); [reflexivity|].
  apply Hreg. left. reflexivity.
Defined.

Lemma activity_touches_only_lastActive_sample :
  has_id (activity_bob !! "userId") user_bob = true
  ∧ ∃ resp w' us',
      post_activity (Some (Obj activity_bob)) world_ann_bob = (Ok resp, w')
      ∧ file_at USERS_FILE w' = Holds (Denotes (Arr us'))
      ∧ length us' = 2
      ∧ us' !! 0 = Some user_ann.
Proof.
  split; [reflexivity|].
  destruct (activity_touches_only_lastActive world_ann_bob activity_bob
              [user_ann; user_bob])
    as (resp & w' & i & mu & t & us' & Hrun & Hi & Hid & Hfirst & _ & Hfile
        & Hlen & Hat & Hother & _); [reflexivity..| |].
  - exists user_bob. split; [|reflexivity].
    apply list_elem_of_In. right. left. reflexivity.
  - exists resp, w', us'.
    split; [done|]. split; [done|]. split; [done|].
    destruct i as [|i]; [|by rewrite Hother].
    injection Hi as <-. discriminate Hid.
Defined.

(** * Further properties of server.js *)

(** ** What a handler leaves untouched *)

Section Unchanged.
Context {T : Type} (f : world → T).
Hypothesis f_tick : ∀ w, f (tick w) = f w.

Lemma unchanged_ret {A} (a : A) : unchanged f (ret a).
Proof. by intros w. Qed.

Lemma unchanged_lift {A} (r : result A) : unchanged f (lift r).
Proof. by intros w. Qed.

Lemma unchanged_bind {A B} (c : M A) (k : A → M B) :
  unchanged f c → (∀ a, unchanged f (k a)) → unchanged f (bind c k).
Proof.
  intros Hc Hk w. unfold bind. specialize (Hc w).
  destruct (c w) as [[a|e] w']; simpl in *; [|done].
  by rewrite Hk.
Qed.

Lemma unchanged_try_catch {A} (c h : M A) :
  unchanged f c → unchanged f h → unchanged f (try_catch c h).
Proof.
  intros Hc Hh w. unfold try_catch. specialize (Hc w).
  destruct (c w) as [[a|e] w']; simpl in *; [done|].
  by rewrite Hh.
Qed.

Lemma unchanged_readUsers : unchanged f readUsers.
Proof. intros w. by rewrite readUsers_stored. Qed.

Lemma unchanged_readActivity : unchanged f readActivity.
Proof. intros w. by rewrite readActivity_stored. Qed.

Lemma unchanged_now : unchanged f Date_now_toISOString.
Proof. intros w. apply f_tick. Qed.

Lemma unchanged_or_else (a : jsval) (e : M json) :
  unchanged f e → unchanged f (or_else a e).
Proof.
  intros He. unfold or_else. destruct a as [v|]; [|done].
  destruct (truthy (Some v)); [apply unchanged_ret|done].
Qed.
End Unchanged.

Lemma unchanged_write_other (p q : path) (t : text) :
  p ≠ q → unchanged (file_at q) (fs_writeFile p t).
Proof.
  intros Hpq w. unfold fs_writeFile, file_at.
  destruct (DATA_DIR w) as [d|] eqn:Hd; simpl; [|by rewrite Hd].
  destruct (file_in p d) eqn:Hp; simpl; rewrite ?Hd; try done;
    by destruct p, q.
Qed.

(** Decomposes a handler along its binds, branches and local
    definitions, down to the primitives. *)
Ltac unchanged_steps :=
  repeat first
    [ apply unchanged_ret
    | apply unchanged_lift
    | apply unchanged_readUsers
    | apply unchanged_readActivity
    | apply unchanged_now; done
    | apply unchanged_or_else
    | apply unchanged_try_catch
    | apply unchanged_bind; [|intros ?]
    | progress cbv zeta
    | match goal with
      | |- unchanged _ (if ?b then _ else _) => destruct b
      end ].

(** X4: the three read handlers, [GET /api/users], [GET /api/activity]
    and [GET /api/stats], leave the disk exactly as it was in every
    world, whatever they answer. *)
Theorem read_handlers_leave_disk (w : world) :
  DATA_DIR (get_users w).2 = DATA_DIR w
  ∧ DATA_DIR (get_activity w).2 = DATA_DIR w
  ∧ DATA_DIR (get_stats w).2 = DATA_DIR w.
Proof.
  split; [|split].
  - revert w. change (unchanged DATA_DIR get_users).
    unfold get_users. unchanged_steps.
  - revert w. change (unchanged DATA_DIR get_activity).
    unfold get_activity. unchanged_steps.
  - revert w. change (unchanged DATA_DIR get_stats).
    unfold get_stats. unchanged_steps.
Qed.

Lemma register_unchanged_activity (req_body : jsval) :
  unchanged (file_at ACTIVITY_FILE) (post_register req_body).
Proof.
  unfold post_register. unchanged_steps.
  unfold writeUsers. by apply unchanged_write_other.
Qed.

(** X13: [POST /api/register] never changes the activity file, whatever
    the request body and the world. *)
Theorem register_leaves_activity_file (req_body : jsval) (w : world) :
  file_at ACTIVITY_FILE (post_register req_body w).2
  = file_at ACTIVITY_FILE w.
Proof.
  revert w.
  change (unchanged (file_at ACTIVITY_FILE) (post_register req_body)).
  unfold post_register. unchanged_steps.
  unfold writeUsers. apply unchanged_write_other. discriminate.
Qed.

(** ** Registration of a new User *)

Lemma find_none_Forall {A} (q : A → bool) (l : list A) :
  Forall (λ x, q x = false) l → List.find q l = None.
Proof.
  induction 1 as [|x l Hx _ IH]; simpl; [done|]. by rewrite Hx.
Qed.

(** X1: a valid register request that matches no stored User appends
    one record at the end of the collection and answers 200 with that
    record.  The record has the [id], [username] and [email] of the
    request, its [registeredAt] and [version] when they are truthy and
    the current time and ["1.0.0"] otherwise, the current time as
    [lastActive], and no other field. *)
Theorem register_new_user_record (w : world) (m : gmap string json)
    (us : list json) :
  valid_register m = true →
  file_at USERS_FILE w = Holds (Denotes (Arr us)) →
  forallb is_object us = true →
  Forall (λ u, same_user (m !! "id") (m !! "email") u = false) us →
  ∃ id username email k,
    m !! "id" = Some id ∧ m !! "username" = Some username
    ∧ m !! "email" = Some email
    ∧ k = (if truthy (m !! "registeredAt") then ticks w else S (ticks w))
    ∧ let newUser :=
        Obj (list_to_map
               [("id", id); ("username", username); ("email", email);
                ("registeredAt",
                 js_or (m !! "registeredAt") (Str (clock w (ticks w))));
                ("version", js_or (m !! "version") (Str "1.0.0"));
                ("lastActive", Str (clock w k))]) in
      ∃ w',
        post_register (Some (Obj m)) w = (Ok (registered newUser), w')
        ∧ file_at USERS_FILE w' = Holds (Denotes (Arr (us ++ [newUser])))
        ∧ ticks w' = S k.
Proof.
  intros Hv Hs Hobj Hnone. apply find_none_Forall in Hnone.
  unfold valid_register in Hv.
  apply andb_prop in Hv as [[Hi Hn]%andb_prop He].
  destruct (m !! "id") as [i|] eqn:Ei; [|discriminate].
  destruct (m !! "username") as [n|] eqn:En; [|discriminate].
  destruct (m !! "email") as [e|] eqn:Ee; [|discriminate].
  destruct w as [[d|] c t]; [|discriminate]. unfold file_at in Hs.
  simpl in Hs.
  exists i, n, e. eexists.
  split; [done|]. split; [done|]. split; [done|]. split; [reflexivity|].
  cbv zeta.
  unfold post_register, try_catch, bind, lift. simpl.
  rewrite Ei, En, Ee, Hi, Hn, He. simpl. rewrite readUsers_stored.
  unfold stored, file_at. simpl. rewrite Hs. simpl.
  rewrite (find_first_objects _ (same_user (Some i) (Some e)));
    [|intros m'; apply register_predicate|done].
  rewrite Hnone. simpl.
  unfold or_else, js_or, writeUsers, fs_writeFile, Date_now_toISOString, ret.
  destruct (m !! "registeredAt") as [r|]; [destruct (truthy (Some r))|];
    simpl; rewrite Hs; simpl; eexists; (split; [reflexivity|]);
    unfold file_at; simpl; done.
Qed.

(** ** Storage that is missing or has another shape *)

Lemma get_users_stored (w : world) :
  get_users w = (Ok (users_listing (stored USERS_FILE w)), w).
Proof.
  unfold get_users, try_catch, bind. by rewrite readUsers_stored.
Qed.

Lemma get_activity_stored (w : world) :
  get_activity w = (Ok (activity_listing (stored ACTIVITY_FILE w)), w).
Proof.
  unfold get_activity, try_catch, bind. by rewrite readActivity_stored.
Qed.

(** X7: running [initializeStorage] a second time changes nothing. *)
Theorem initializeStorage_idempotent (w : world) :
  initializeStorage (initializeStorage w).2
  = (Ok (), (initializeStorage w).2).
Proof.
  destruct w as [[[u a]|] c t];
    unfold initializeStorage, try_catch, bind, ret, fs_mkdir_recursive,
      fs_access, fs_writeFile, file_at, with_dir; simpl; [|done].
  destruct u as [| |tu], a as [| |ta]; reflexivity.
Qed.

(** X5: once [initializeStorage] has run on a disk without a users
    file, a valid register request is answered 200 with a new record
    that carries the [id] of the request, and [GET /api/users] then
    lists exactly that record. *)
Theorem register_then_get_users (w0 : world) (m : gmap string json) :
  file_at USERS_FILE w0 = Absent →
  valid_register m = true →
  ∃ newUser w2,
    post_register (Some (Obj m)) (initializeStorage w0).2
      = (Ok (registered newUser), w2)
    ∧ field newUser "id" = m !! "id"
    ∧ get_users w2 = (Ok (users_listing (Arr [newUser])), w2).
Proof.
  intros Habs Hv.
  assert (file_at USERS_FILE (initializeStorage w0).2
          = Holds (Denotes (Arr []))) as Hs.
  { destruct w0 as [[[u a]|] c t]; unfold file_at in Habs; simpl in Habs;
      [subst u; by destruct a as [| |ta]|done]. }
  destruct (post_register_new _ m [] Hv Hs) as
    (newUser & w2 & Hrun & Hs2 & _ & _ & Hid & _); [done..|].
  exists newUser, w2. split; [done|]. split; [done|].
  by rewrite get_users_stored, (stored_holds _ _ _ Hs2).
Qed.

(** X6: as long as the storage directory does not exist, a valid
    register request and a valid activity request are answered 500 and
    create nothing, while the read handlers answer as for empty
    collections. *)
Theorem requests_without_storage (w : world) (m : gmap string json) :
  DATA_DIR w = None →
  (valid_register m = true →
   ∃ w', post_register (Some (Obj m)) w
         = (Ok (server_error "Registration failed"), w')
         ∧ DATA_DIR w' = None)
  ∧ (valid_activity m = true →
     ∃ w', post_activity (Some (Obj m)) w
           = (Ok (server_error "Failed to log activity"), w')
           ∧ DATA_DIR w' = None)
  ∧ get_users w = (Ok (users_listing (Arr [])), w)
  ∧ get_activity w = (Ok (activity_listing (Arr [])), w)
  ∧ get_stats w = (Ok (stats 0 0 0), tick w).
Proof.
  intros Hd. destruct w as [d c t]. simpl in Hd. subst d.
  split; [|split; [|split; [|split]]]; try reflexivity.
  - intros Hv. unfold valid_register in Hv.
    apply andb_prop in Hv as [[Hi Hn]%andb_prop He].
    unfold post_register, try_catch, bind, lift. simpl.
    rewrite Hi, Hn, He. simpl.
    destruct (m !! "id") as [i|]; [|discriminate].
    destruct (m !! "username") as [n|]; [|discriminate].
    destruct (m !! "email") as [e|]; [|discriminate].
    unfold or_else.
    destruct (m !! "registeredAt") as [r|]; [destruct (truthy (Some r))|];
      simpl; by eexists.
  - intros Hv. unfold valid_activity in Hv.
    apply andb_prop in Hv as [Hu Ha].
    unfold post_activity, try_catch, bind, lift. simpl.
    rewrite Hu, Ha. simpl. unfold or_else.
    destruct (m !! "timestamp") as [r|]; [destruct (truthy (Some r))|];
      simpl; by eexists.
Qed.

(** X8: when the users file is JSON text that is not an array, a valid
    register request and a valid activity request are answered 500 and
    leave the world as it was, and [GET /api/stats] is answered 500. *)
Theorem users_file_of_other_shape (w : world) (v : json)
    (m : gmap string json) :
  file_at USERS_FILE w = Holds (Denotes v) →
  is_array v = false →
  (valid_register m = true →
   post_register (Some (Obj m)) w
   = (Ok (server_error "Registration failed"), w))
  ∧ (valid_activity m = true →
     post_activity (Some (Obj m)) w
     = (Ok (server_error "Failed to log activity"), w))
  ∧ get_stats w = (Ok (server_error "Failed to fetch stats"), tick w).
Proof.
  intros Hs Hv. apply stored_holds in Hs. split; [|split].
  - intros Hm. unfold valid_register in Hm.
    apply andb_prop in Hm as [[Hi Hn]%andb_prop He].
    unfold post_register, try_catch, bind, lift. simpl.
    rewrite Hi, Hn, He. simpl. rewrite readUsers_stored, Hs.
    by destruct v.
  - intros Hm. unfold valid_activity in Hm.
    apply andb_prop in Hm as [Hu Ha].
    unfold post_activity, try_catch, bind, lift. simpl.
    rewrite Hu, Ha. simpl. rewrite readUsers_stored, Hs.
    by destruct v.
  - unfold get_stats, try_catch, bind, lift.
    rewrite readUsers_stored, Hs, readActivity_stored. simpl.
    rewrite split_on_head. simpl. by destruct v.
Qed.

(** ** Invariants of the stored collections *)

Lemma post_register_cases (req_body : jsval) (w : world) :
  (∃ m, req_body = Some (Obj m) ∧ valid_register m = true)
  ∨ (post_register req_body w).2 = w.
Proof.
  destruct req_body as [[| | | | |m]|]; try by right.
  destruct (valid_register m) eqn:Hv; [left; by eauto|right].
  rewrite post_register_invalid; [done..|].
  unfold valid_register in Hv. simpl.
  destruct (truthy (m !! "id")), (truthy (m !! "username")),
    (truthy (m !! "email")); done.
Qed.

Lemma post_activity_cases (req_body : jsval) (w : world) :
  (∃ m, req_body = Some (Obj m) ∧ valid_activity m = true)
  ∨ (post_activity req_body w).2 = w.
Proof.
  destruct req_body as [[| | | | |m]|]; try by right.
  destruct (valid_activity m) eqn:Hv; [left; by eauto|right].
  rewrite post_activity_invalid; [done..|].
  unfold valid_activity in Hv. simpl.
  destruct (truthy (m !! "userId")), (truthy (m !! "action")); done.
Qed.

Lemma strict_eq_sym (a b : jsval) : strict_eq a b = strict_eq b a.
Proof.
  destruct a as [[| x | x | x | |]|], b as [[| y | y | y | |]|];
    simpl; try done.
  - by destruct x, y.
  - apply Z.eqb_sym.
  - apply String.eqb_sym.
Qed.

Lemma same_user_sym (u v : json) :
  is_object u = true → is_object v = true →
  same_user (field u "id") (field u "email") v
  = same_user (field v "id") (field v "email") u.
Proof.
  destruct u, v; try done. intros _ _. simpl.
  by rewrite (strict_eq_sym (m0 !! "id")), (strict_eq_sym (m0 !! "email")).
Qed.

Lemma distinct_users_snoc (us : list json) (U : json) :
  forallb is_object us = true → is_object U = true →
  distinct_users us →
  Forall (λ u, same_user (field U "id") (field U "email") u = false) us →
  distinct_users (us ++ [U]).
Proof.
  intros Hobj HU Hd Hnone i j u v Hij Hi Hj.
  destruct (decide (j < length us)) as [Hlt|Hge].
  - rewrite lookup_app_l in Hi, Hj by lia. exact (Hd i j u v Hij Hi Hj).
  - assert (j = length us) as ->.
    { apply lookup_lt_Some in Hj. rewrite length_app in Hj. simpl in Hj.
      lia. }
    rewrite lookup_app_l in Hi by lia.
    rewrite list_lookup_middle in Hj by done. injection Hj as <-.
    rewrite same_user_sym; [|by eapply forallb_lookup|done].
    rewrite Forall_forall in Hnone. apply Hnone.
    by eapply list_elem_of_lookup_2.
Qed.

Lemma same_user_touch (id email : jsval) (t v : json) :
  same_user id email (touch t v) = same_user id email v.
Proof.
  destruct v; try done. simpl. by rewrite !lookup_insert_ne.
Qed.

Lemma field_touch (t u : json) (k : string) :
  k ≠ "lastActive" → field (touch t u) k = field u k.
Proof. intros Hk. destruct u; try done. simpl. by rewrite lookup_insert_ne. Qed.

Lemma distinct_users_touch (us : list json) (n : nat) (t x : json) :
  us !! n = Some x →
  distinct_users us → distinct_users (<[n := touch t x]> us).
Proof.
  intros Hn Hd i j u v Hij Hi Hj.
  assert (∀ k y, <[n := touch t x]> us !! k = Some y →
            ∃ y', us !! k = Some y' ∧ (y = y' ∨ y = touch t y')) as Hlook.
  { intros k y Hk. destruct (decide (n = k)) as [->|Hne].
    - rewrite list_lookup_insert_eq in Hk by (by eapply lookup_lt_Some).
      injection Hk as <-. by eauto.
    - rewrite list_lookup_insert_ne in Hk by done. by eauto. }
  destruct (Hlook i u Hi) as (u' & Hi' & Hu).
  destruct (Hlook j v Hj) as (v' & Hj' & Hv).
  pose proof (Hd i j u' v' Hij Hi' Hj') as Hsame.
  destruct Hu as [->| ->], Hv as [->| ->];
    by rewrite ?same_user_touch, ?field_touch.
Qed.

Lemma forallb_insert {A} (q : A → bool) (l : list A) (i : nat) (x : A) :
  forallb q l = true → q x = true → forallb q (<[i := x]> l) = true.
Proof.
  intros Hl Hx. apply forallb_forall. intros y Hy%list_elem_of_In.
  apply list_elem_of_lookup in Hy as [j Hj].
  destruct (decide (i = j)) as [->|Hne].
  - destruct (decide (j < length l)) as [Hlt|Hge].
    + rewrite list_lookup_insert_eq in Hj by done. by injection Hj as <-.
    + rewrite list_insert_ge in Hj by lia. by eapply forallb_lookup.
  - rewrite list_lookup_insert_ne in Hj by done. by eapply forallb_lookup.
Qed.

Lemma exact_identity_touch (t u : json) :
  exact_identity (touch t u) = exact_identity u.
Proof. unfold exact_identity. by rewrite !field_touch. Qed.

Lemma users_touched_file (m : gmap string json) (us : list json)
    (w w' : world) :
  file_at USERS_FILE w = Holds (Denotes (Arr us)) →
  forallb is_object us = true →
  users_touched m us w w' →
  ∃ us', file_at USERS_FILE w' = Holds (Denotes (Arr us'))
         ∧ forallb is_object us' = true
         ∧ (distinct_users us → distinct_users us')
         ∧ (forallb exact_identity us = true →
            forallb exact_identity us' = true).
Proof.
  intros Hs Hobj. unfold users_touched.
  destruct (list_find _ us) as [[i u]|] eqn:Hf.
  - intros [k Hk]. eexists. split; [exact Hk|].
    apply list_find_Some in Hf as (Hi & _ & _). split; [|split].
    + apply forallb_touch; [done|]. by eapply forallb_lookup.
    + by apply distinct_users_touch.
    + intros He. apply forallb_insert; [done|].
      rewrite exact_identity_touch. by eapply forallb_lookup.
  - intros ->. by exists us.
Qed.

Lemma register_keeps_users (w : world) (req_body : jsval) (us : list json) :
  file_at USERS_FILE w = Holds (Denotes (Arr us)) →
  forallb is_object us = true →
  ∃ us', file_at USERS_FILE (post_register req_body w).2
         = Holds (Denotes (Arr us'))
         ∧ forallb is_object us' = true
         ∧ (distinct_users us → distinct_users us')
         ∧ (forallb exact_identity us = true →
            exact (body_field req_body "id") = true →
            exact (body_field req_body "email") = true →
            forallb exact_identity us' = true).
Proof.
  intros Hs Hobj.
  destruct (post_register_cases req_body w) as [(m & -> & Hv)| ->];
    [|by exists us].
  destruct (List.find (same_user (m !! "id") (m !! "email")) us)
    as [u|] eqn:Hf.
  - rewrite (post_register_found w m us u Hv (stored_holds _ _ _ Hs)
               Hobj Hf). by exists us.
  - destruct (post_register_new w m us Hv Hs Hobj Hf)
      as (U & w' & -> & Hs' & _ & HU & Hid & Hem).
    exists (us ++ [U]). split; [done|].
    split; [by apply forallb_snoc|]. split.
    + intros Hd. apply distinct_users_snoc; try done.
      rewrite Hid, Hem. apply Forall_forall. intros u Hu.
      apply list_elem_of_In in Hu.
      by pose proof (find_none _ _ Hf u Hu).
    + intros He Hi He'. apply forallb_snoc; [done|].
      unfold exact_identity. rewrite Hid, Hem. simpl in Hi, He'.
      by rewrite Hi, He'.
Qed.

Lemma activity_keeps_users (w : world) (req_body : jsval) (us : list json) :
  file_at USERS_FILE w = Holds (Denotes (Arr us)) →
  forallb is_object us = true →
  ∃ us', file_at USERS_FILE (post_activity req_body w).2
         = Holds (Denotes (Arr us'))
         ∧ forallb is_object us' = true
         ∧ (distinct_users us → distinct_users us')
         ∧ (forallb exact_identity us = true →
            forallb exact_identity us' = true).
Proof.
  intros Hs Hobj.
  destruct (post_activity_cases req_body w) as [(m & -> & Hv)| ->];
    [|by exists us].
  destruct (post_activity_outcome w m us Hv (stored_holds _ _ _ Hs) Hobj)
    as (r & w' & -> & _ & Hus & _).
  by eapply users_touched_file.
Qed.

(** X2: no request creates a duplicate among identities that are
    stored as they are.  When the users file holds records of which no
    two share an [id] or an [email], none of these being a number that
    no finite double holds, this is still so after [POST /api/register]
    with a body whose [id] and [email] are no such numbers either, and
    after [POST /api/activity] with any body. *)
Theorem requests_keep_users_distinct (w : world) (req_body : jsval)
    (us : list json) :
  file_at USERS_FILE w = Holds (Denotes (Arr us)) →
  forallb is_object us = true →
  forallb exact_identity us = true →
  distinct_users us →
  (exact (body_field req_body "id") = true →
   exact (body_field req_body "email") = true →
   ∃ us', file_at USERS_FILE (post_register req_body w).2
          = Holds (Denotes (Arr us'))
          ∧ forallb exact_identity us' = true
          ∧ distinct_users us')
  ∧ (∃ us', file_at USERS_FILE (post_activity req_body w).2
            = Holds (Denotes (Arr us'))
            ∧ forallb exact_identity us' = true
            ∧ distinct_users us').
Proof.
  intros Hs Hobj He Hd. split.
  - intros Hid Hem.
    destruct (register_keeps_users w req_body us Hs Hobj)
      as (us' & Hs' & _ & Hd' & He'). exists us'. by auto.
  - destruct (activity_keeps_users w req_body us Hs Hobj)
      as (us' & Hs' & _ & Hd' & He'). exists us'. by auto.
Qed.

Lemma forallb_drop {A} (q : A → bool) (n : nat) (l : list A) :
  forallb q l = true → forallb q (drop n l) = true.
Proof.
  rewrite !forallb_forall. intros Hl x Hx%list_elem_of_In. apply Hl.
  apply list_elem_of_In. by eapply subseteq_drop.
Qed.

(** X3: the shape of the storage is an invariant.  [initializeStorage]
    on a disk without the two files leaves both holding an array of
    records, the activity file at most 1000 of them; and when that is
    so it is still so after [POST /api/register] and after
    [POST /api/activity], whatever the request body. *)
Theorem requests_keep_storage_well_formed (w : world) (req_body : jsval) :
  (file_at USERS_FILE w = Absent → file_at ACTIVITY_FILE w = Absent →
   well_formed (initializeStorage w).2)
  ∧ (well_formed w →
     well_formed (post_register req_body w).2
     ∧ well_formed (post_activity req_body w).2).
Proof.
  split.
  - intros Hu Ha. exists [], [].
    destruct w as [[[u a]|] c t]; unfold file_at in *; simpl in *;
      [subst u a|]; repeat split; simpl; lia.
  - intros (us & acts & Hs & Hobj & Ha & Hobja & Hlen). split.
    + destruct (register_keeps_users w req_body us Hs Hobj)
        as (us' & Hs' & Hobj' & _).
      exists us', acts. rewrite register_unchanged_activity. by auto.
    + destruct (activity_keeps_users w req_body us Hs Hobj)
        as (us' & Hs' & Hobj' & _).
      destruct (post_activity_cases req_body w) as [(m & -> & Hv)|Hw].
      * destruct (post_activity_outcome w m us Hv (stored_holds _ _ _ Hs)
                    Hobj) as (r & w' & Hrun & _ & _ & _ & Hold).
        rewrite Hrun in Hs' |- *. simpl in *.
        destruct (Hold acts Ha) as [_ [k Hk]].
        exists us'. eexists. split; [done|]. split; [done|].
        split; [exact Hk|]. split.
        -- apply forallb_drop. by apply forallb_snoc.
        -- rewrite retained_length. lia.
      * rewrite Hw in Hs' |- *. by exists us', acts.
Qed.

(** ** The two halves of an activity request *)

Lemma wp_try_catch_inv {A} (c h : M A) (w : world)
    (Q : result A → world → Prop) :
  wp (try_catch c h) w Q →
  wp c w (λ r w', match r with
                  | Ok a => Q (Ok a) w'
                  | Throw _ => wp h w' Q
                  end).
Proof. unfold wp, try_catch. by destruct (c w) as [[a|e] w']. Qed.

(** A valid activity request on a stored Users collection updates the
    users file as [users_touched] says and then logs the event as
    [log_phase] does, answering 500 when that throws. *)
Lemma post_activity_phases (w : world) (m : gmap string json)
    (us : list json) (Q : result response → world → Prop) :
  valid_activity m = true →
  stored USERS_FILE w = Arr us →
  forallb is_object us = true →
  (∀ w1, clock w1 = clock w →
         ticks w1 = ticks w + readings_before_event m us →
         file_at ACTIVITY_FILE w1 = file_at ACTIVITY_FILE w →
         users_touched m us w w1 →
         wp (try_catch (log_phase m)
               (ret (res_status_json 500
                       (object_literal
                          [("error", Some (Str "Failed to log activity"))]))))
            w1 Q) →
  wp (post_activity (Some (Obj m))) w Q.
Proof.
  intros Hv Hs Hobj Hlog. unfold valid_activity in Hv.
  apply andb_prop in Hv as [Hu Hact].
  unfold post_activity. rewrite !prop_obj.
  wp_go. rewrite Hu, Hact. simpl negb. simpl orb. cbv iota.
  wp_go. rewrite Hs. unfold Array_findIndex.
  rewrite (find_index_from_objects _ (has_id (m !! "userId")))
    by (done || apply activity_predicate).
  wp_go.
  eapply wp_wand with
    (Q := λ r w1, r = Ok () ∧ clock w1 = clock w
                  ∧ ticks w1 = ticks w + readings_before_event m us
                  ∧ file_at ACTIVITY_FILE w1 = file_at ACTIVITY_FILE w
                  ∧ users_touched m us w w1).
  - unfold users_touched, readings_before_event.
    destruct (list_find _ us) as [[i u]|] eqn:Hf.
    + apply list_find_Some in Hf as (Hi & Hq & _).
      pose proof (stored_users_found _ _ _ _ Hs Hi) as Hfile.
      pose proof (forallb_lookup _ _ _ _ Hobj Hi) as Hio.
      destruct u as [| | | | |mu]; try discriminate.
      replace (0 + Z.of_nat i)%Z with (Z.of_nat i) by lia.
      destruct (Z.eqb_spec (Z.of_nat i) (-1)) as [?|_]; [lia|].
      simpl negb. cbv iota.
      unfold Array_set_prop_at. rewrite Nat2Z.id, Hi. simpl rbind.
      destruct w as [[[fu fa]|] c t]; [|discriminate].
      unfold file_at in Hfile. simpl in Hfile. subst fu.
      wp_step. apply wp_or_else_now; intros Hts; wp_go; rewrite Hts; simpl;
        (split; [done|]); (split; [done|]); (split; [lia|]);
        (split; [done|]); by exists t.
    + simpl negb. cbv iota. wp_go.
      repeat split; try done.
      destruct (truthy (m !! "timestamp")); simpl; lia.
  - intros r w1 (-> & Hc & Ht & Ha & Hus).
    exact (wp_try_catch_inv _ _ _ _ (Hlog w1 Hc Ht Ha Hus)).
Qed.

Lemma users_touched_frame (m : gmap string json) (us : list json)
    (w w1 w' : world) :
  file_at USERS_FILE w' = file_at USERS_FILE w1 →
  users_touched m us w w1 → users_touched m us w w'.
Proof. unfold users_touched. by intros ->. Qed.

(** X9: there is no rollback.  When a valid activity request matches a
    stored User and the activity file cannot be opened, or holds JSON
    that is not an array, the request is answered 500 and the activity
    file is as it was, yet the users file has been rewritten with that
    User's [lastActive] set. *)
Theorem activity_failure_keeps_users_update (w : world)
    (m : gmap string json) (us : list json) :
  valid_activity m = true →
  file_at USERS_FILE w = Holds (Denotes (Arr us)) →
  forallb is_object us = true →
  (∃ u, u ∈ us ∧ has_id (m !! "userId") u = true) →
  file_at ACTIVITY_FILE w = Unreadable
  ∨ (∃ v, file_at ACTIVITY_FILE w = Holds (Denotes v)
          ∧ is_array v = false) →
  ∃ w' i u k,
    post_activity (Some (Obj m)) w
    = (Ok (server_error "Failed to log activity"), w')
    ∧ list_find (λ u, has_id (m !! "userId") u = true) us = Some (i, u)
    ∧ file_at USERS_FILE w' =
        Holds (Denotes (Arr (<[i := touch (stamp m (clock w k)) u]> us)))
    ∧ file_at ACTIVITY_FILE w' = file_at ACTIVITY_FILE w.
Proof.
  intros Hv Hs Hobj (u0 & Hin & Hid) Hbad.
  destruct (wp_run (post_activity (Some (Obj m))) w
    (λ r w', r = Ok (server_error "Failed to log activity")
             ∧ users_touched m us w w'
             ∧ file_at ACTIVITY_FILE w' = file_at ACTIVITY_FILE w))
    as (r & w' & Hrun & -> & Hus & Ha').
  { apply (post_activity_phases w m us); [done|by apply stored_holds|done|].
    intros w1 Hc _ Ha Hus1. rewrite <- Ha in Hbad |- *.
    eapply wp_wand with
      (Q := λ r w', r = Ok (server_error "Failed to log activity")
              ∧ file_at USERS_FILE w' = file_at USERS_FILE w1
              ∧ file_at ACTIVITY_FILE w' = file_at ACTIVITY_FILE w1).
    - unfold log_phase. wp_go. apply wp_or_else_now; intros Hts; wp_go.
      all: change (object_literal (("userId", _) :: _))
             with (event_of m (stamp m (clock w1 (ticks w1)))).
      all: set (ev := event_of _ _).
      all: destruct w1 as [[[fu1 fa1]|] c1 t1]; unfold stored, file_at in *;
        simpl in Hbad;
        [|by destruct Hbad as [?|(? & ? & ?)]].
      all: simpl DATA_DIR; cbv iota; simpl file_in.
      all: destruct Hbad as [->|(v & -> & Hv')]; [|by destruct v].
      all: simpl Array_push; cbv iota; wp_go; simpl Array_length;
        cbv iota; wp_go; simpl; done.
    - intros r w' (-> & Hu' & Ha'). split; [done|].
      split; [by eapply users_touched_frame|done]. }
  unfold users_touched in Hus.
  destruct (list_find _ us) as [[i u]|] eqn:Hf.
  - destruct Hus as [k Hk]. by exists w', i, u, k.
  - apply list_find_None in Hf. rewrite Forall_forall in Hf.
    by destruct (Hf u0 Hin).
Qed.

(** ** Values the handlers do not check *)

Lemma filter_list_throws (p : json → result bool) (l : list json)
    (i : nat) (x : json) (e : exn) :
  l !! i = Some x → p x = Throw e → ∃ e', filter_list p l = Throw e'.
Proof.
  revert i. induction l as [|y l IH]; intros i Hi Hx; [done|].
  simpl. destruct i as [|i]; simpl in Hi.
  - injection Hi as ->. rewrite Hx. by eauto.
  - destruct (p y) as [b|e0]; simpl; [|by eauto].
    destruct (IH i Hi Hx) as [e' ->]. by eauto.
Qed.

(** X10: the [timestamp] of an activity request is stored unchecked.
    After a valid request that matches a stored User and carries a
    truthy [timestamp] that is not a string, [GET /api/stats] is
    answered 500.  The [userId] and the [timestamp], when they are
    numbers, are numbers that a finite double holds: of [1e400] the
    program makes [Infinity], which matches no stored [id] and is
    stored as [null]. *)
Theorem non_string_timestamp_breaks_stats (w : world)
    (m : gmap string json) (us : list json) (ts : json) :
  valid_activity m = true →
  file_at USERS_FILE w = Holds (Denotes (Arr us)) →
  forallb is_object us = true →
  (∃ u, u ∈ us ∧ has_id (m !! "userId") u = true) →
  exact (m !! "userId") = true →
  m !! "timestamp" = Some ts →
  truthy (Some ts) = true →
  is_string (Some ts) = false →
  exact (Some ts) = true →
  ∃ resp w',
    post_activity (Some (Obj m)) w = (Ok resp, w')
    ∧ get_stats w' = (Ok (server_error "Failed to fetch stats"), tick w').
Proof.
  intros Hv Hs Hobj (u0 & Hin & Hid) _ Hts Htruthy Hstr _.
  destruct (post_activity_outcome w m us Hv (stored_holds _ _ _ Hs) Hobj)
    as (r & w' & Hrun & _ & Hus & [resp ->] & _).
  exists resp, w'. split; [done|].
  unfold users_touched in Hus.
  destruct (list_find _ us) as [[i u]|] eqn:Hf.
  2:{ apply list_find_None in Hf. rewrite Forall_forall in Hf.
      by destruct (Hf u0 Hin). }
  apply list_find_Some in Hf as (Hi & _ & _).
  destruct Hus as [k Hk]. apply stored_holds in Hk.
  assert (stamp m (clock w k) = ts) as Hstamp.
  { unfold stamp, js_or. by rewrite Hts, Htruthy. }
  rewrite Hstamp in Hk.
  pose proof (forallb_lookup _ _ _ _ Hobj Hi) as Hio.
  destruct u as [| | | | |mu]; try discriminate.
  unfold get_stats, try_catch, bind, lift.
  rewrite readUsers_stored, Hk, readActivity_stored. simpl.
  rewrite split_on_head. simpl.
  edestruct (filter_list_throws) as [e' ->]; [| |reflexivity].
  - apply list_lookup_insert_eq. by eapply lookup_lt_Some.
  - simpl. rewrite lookup_insert_eq. rewrite Htruthy.
    by destruct ts.
Qed.

(** One step of the sum of [GET /api/stats] on a primitive count: [+]
    does not throw, a string accumulator stays a string, and a
    non-empty string count makes one. *)
Lemma add_messagesSent_scalar (sum a : json) :
  scalar sum = true → is_object a = true →
  primitive (field a "messagesSent") = true →
  ∃ v, (let? a_messagesSent := prop (Some a) "messagesSent" in
        js_add sum (js_or a_messagesSent (Num 0))) = Ok v
       ∧ scalar v = true
       ∧ (is_string (Some sum) = true → is_string (Some v) = true)
       ∧ (∀ s, field a "messagesSent" = Some (Str s) → s ≠ "" →
               is_string (Some v) = true).
Proof.
  destruct a as [| | | | |ma]; try done. intros Hsum _ Hp.
  cbn [prop rbind field] in *.
  assert (∃ x, js_or (ma !! "messagesSent") (Num 0) = x
               ∧ primitive (Some x) = true
               ∧ x ≠ Null
               ∧ ∀ s, ma !! "messagesSent" = Some (Str s) → s ≠ "" →
                      x = Str s) as (x & -> & Hx & Hnull & Hstr).
  { eexists. split; [reflexivity|]. unfold js_or.
    destruct (ma !! "messagesSent") as [[| [] | z | s | |]|]; try done.
    - by destruct (truthy (Some (Num z))).
    - destruct (truthy (Some (Str s))) eqn:Hts.
      + repeat split; try done. by intros ? [= ->].
      + repeat split; try done. intros ? [= <-] Hne. simpl in Hts.
        by destruct (String.eqb_spec s ""). }
  destruct sum as [| | n | t | |]; try done.
  - destruct x as [| b | z | s | |]; try done; simpl.
    all: eexists; split; [reflexivity|]; repeat split; try done.
    all: intros s0 Hs0 Hne; by specialize (Hstr s0 Hs0 Hne).
  - destruct x as [| [] | z | s | |]; try done; simpl.
    all: by eexists.
Qed.

Lemma reduce_messagesSent_scalar (l : list json) (acc : json) :
  scalar acc = true →
  Forall (λ a, is_object a = true
               ∧ primitive (field a "messagesSent") = true) l →
  ∃ v,
    reduce_list
      (λ sum a, let? a_messagesSent := prop (Some a) "messagesSent" in
                js_add sum (js_or a_messagesSent (Num 0)))
      l acc
    = Ok v
    ∧ scalar v = true
    ∧ (is_string (Some acc) = true → is_string (Some v) = true)
    ∧ (∀ a s, a ∈ l → field a "messagesSent" = Some (Str s) → s ≠ "" →
              is_string (Some v) = true).
Proof.
  intros Hacc Hl. revert acc Hacc.
  induction Hl as [|x l [Hx Hp] Hl IH]; intros acc Hacc.
  - exists acc. repeat split; try done. by intros a s Ha%elem_of_nil.
  - cbn [reduce_list].
    destruct (add_messagesSent_scalar acc x Hacc Hx Hp)
      as (v & -> & Hv & Hkeep & Hhit).
    cbn [rbind]. destruct (IH v Hv) as (v' & -> & Hv' & Hkeep' & Hhit').
    exists v'. repeat split; try done.
    + by auto.
    + intros a s [->|Ha]%elem_of_cons Hms Hs; by eauto.
Qed.

(** X11: [messagesSent] is summed unchecked.  When the stop events
    stored carry primitives as [messagesSent], or none, and one of them
    carries a non-empty string, [GET /api/stats] is answered 200 with a
    string, not a number, as [totalMessages]. *)
Theorem string_messagesSent_makes_total_a_string (w : world)
    (us acts : list json) (a : json) (s : string) :
  stored USERS_FILE w = Arr us →
  stored ACTIVITY_FILE w = Arr acts →
  forallb user_record us = true →
  forallb countable_event acts = true →
  a ∈ acts → is_stop a = true →
  field a "messagesSent" = Some (Str s) → s ≠ "" →
  ∃ activeToday concatenation,
    get_stats w
    = (Ok (stats_with (Z.of_nat (length us)) activeToday
             (Str concatenation)), tick w).
Proof.
  intros Hs Ha Hus Hacts Hin Hstop Hms Hne.
  rewrite forallb_forall in Hus. rewrite forallb_forall in Hacts.
  destruct (reduce_messagesSent_scalar (List.filter is_stop acts) (Num 0))
    as (v & Hred & _ & _ & Hhit); [done| |].
  { apply Forall_forall. intros x [Hx Hsx]%list_elem_of_In%filter_In.
    specialize (Hacts x Hx). unfold countable_event in Hacts.
    rewrite Hsx in Hacts. by apply andb_prop in Hacts. }
  assert (is_string (Some v) = true) as Hv.
  { apply (Hhit a s); [|done..].
    apply list_elem_of_In, filter_In. split; [|done].
    by apply list_elem_of_In. }
  destruct v as [| | | s' | |]; try done.
  exists (count_if (active_on (date_part (clock w (ticks w)))) us), s'.
  enough (wp get_stats w (λ r w',
    r = Ok (stats_with (Z.of_nat (length us))
              (count_if (active_on (date_part (clock w (ticks w)))) us)
              (Str s'))
    ∧ w' = tick w)) as Hwp.
  { unfold wp in Hwp. destruct (get_stats w) as [r w'].
    simpl in Hwp. by destruct Hwp as [-> ->]. }
  unfold get_stats. wp_go. rewrite Hs, Ha.
  simpl split_T_first. rewrite split_on_head. simpl fmap. wp_go.
  unfold Array_filter.
  rewrite (filter_list_pure _
             (active_on (date_part (clock w (ticks w))))).
  2:{ apply Forall_forall. intros u Hu%list_elem_of_In.
      by apply active_predicate, Hus. }
  wp_go. rewrite (filter_list_pure _ is_stop).
  2:{ apply Forall_forall. intros x Hx%list_elem_of_In.
      apply stop_predicate. specialize (Hacts x Hx).
      unfold countable_event in Hacts.
      by apply andb_prop in Hacts as [? _]. }
  wp_go. rewrite Hred. wp_go. simpl Array_length. cbv iota. wp_go.
  rewrite length_filter_count. done.
Qed.

(** ** The recorded event and the answer of the statistics *)

(** X12: a valid activity request on stored collections is answered 200
    and leaves in the activity file what was there, less the entries
    evicted from the front, followed by one event.  The event has the
    [userId] and [action] of the request, its [messagesSent] when truthy
    and 0 otherwise, its [timestamp] when truthy and otherwise the
    current time: the reading of the clock that follows the one made
    for [lastActive], if any, and the last that the request makes.  The
    event has no other field. *)
Theorem activity_event_defaults (w : world) (m : gmap string json)
    (us old : list json) :
  valid_activity m = true →
  stored USERS_FILE w = Arr us →
  forallb is_object us = true →
  file_at ACTIVITY_FILE w = Holds (Denotes (Arr old)) →
  ∃ userId action w',
    m !! "userId" = Some userId ∧ m !! "action" = Some action
    ∧ post_activity (Some (Obj m)) w = (Ok logged, w')
    ∧ file_at ACTIVITY_FILE w' =
        Holds (Denotes
          (Arr (drop (length old + 1 - 1000) old
                ++ [Obj (list_to_map
                      [("userId", userId); ("action", action);
                       ("messagesSent",
                        js_or (m !! "messagesSent") (Num 0));
                       ("timestamp",
                        js_or (m !! "timestamp")
                          (Str (clock w
                                  (ticks w
                                   + readings_before_event m us))))])])))
    ∧ ticks w' = ticks w + readings_before_event m us
                 + (if truthy (m !! "timestamp") then 0 else 1).
Proof.
  intros Hv Hs Hobj Ha.
  destruct (wp_run (post_activity (Some (Obj m))) w
    (λ r w',
       r = Ok logged
       ∧ file_at ACTIVITY_FILE w' =
           Holds (Denotes (Arr (retained
             (old ++ [event_of m
                        (stamp m (clock w
                           (ticks w + readings_before_event m us)))]))))
       ∧ ticks w' = ticks w + readings_before_event m us
                    + (if truthy (m !! "timestamp") then 0 else 1)))
    as (r & w' & Hrun & -> & Hfile & Ht).
  { apply (post_activity_phases w m us); [done..|].
    intros w1 Hc Ht1 Ha1 _. rewrite <- Ha1 in Ha.
    rewrite <- Hc, <- Ht1. clear Hc Ht1 Ha1.
    apply wp_try_catch. unfold log_phase. wp_go.
    apply wp_or_else_now; intros Hts; wp_go.
    all: change (object_literal (("userId", _) :: _))
           with (event_of m (stamp m (clock w1 (ticks w1)))).
    all: set (ev := event_of _ _).
    all: destruct w1 as [[[fu1 fa1]|] c1 t1]; unfold stored, file_at in *;
      simpl in Ha; [subst fa1|discriminate].
    all: simpl DATA_DIR; cbv iota; simpl file_in.
    all: simpl Array_push; cbv iota; wp_go; simpl Array_length;
      cbv iota; wp_go.
    all: destruct (Z.gtb_spec (Z.of_nat (length (old ++ [ev]))) 1000)
           as [Hlen|Hlen]; cbv iota; wp_go; unfold Array_splice0;
      cbv iota; wp_go; cbn [DATA_DIR tick file_in activity_json]; wp_go;
      cbn [DATA_DIR with_dir tick file_at file_in put_file users_json
             activity_json clock ticks JSON_stringify];
      rewrite Hts; (split; [done|]); (split; [|simpl; lia]);
      unfold retained; do 3 f_equal.
    all: try (f_equal; lia).
    all: replace (length (old ++ [ev]) - 1000) with 0 by lia; done. }
  unfold valid_activity in Hv. apply andb_prop in Hv as [Hu Hact].
  destruct (m !! "userId") as [u|] eqn:Eu; [|discriminate].
  destruct (m !! "action") as [a|] eqn:Eact; [|discriminate].
  exists u, a, w'. split; [done|]. split; [done|]. split; [done|].
  split; [|done].
  rewrite Hfile. unfold retained. rewrite length_app. simpl.
  rewrite drop_app_le by lia.
  unfold event_of, stamp, object_literal. simpl. by rewrite Eu, Eact.
Qed.

(** X17: [totalMessages] is a sum of doubles.  With the stop events
    9007199254740992, 1 and 1, whose sum is not a safe integer,
    [GET /api/stats] is answered 200 with 9007199254740992, where the
    sum of the integers is 9007199254740994: each [+ 1] is rounded
    away. *)
Example stats_totalMessages_rounds :
  forallb event_record events_beyond_safe = true
  ∧ get_stats world_beyond_safe
    = (Ok (stats 1 1 9007199254740992), tick world_beyond_safe)
  ∧ total_stop_messages events_beyond_safe = 9007199254740994%Z.
Proof. split; [reflexivity|]. split; [|reflexivity]. by vm_compute. Qed.

(** X14: on stored collections [GET /api/stats] is answered 200 with
    [totalUsers] equal to the number of stored Users, and reads the
    clock once. *)
Theorem stats_totalUsers (w : world) (us acts : list json) :
  stored USERS_FILE w = Arr us →
  stored ACTIVITY_FILE w = Arr acts →
  forallb user_record us = true →
  forallb event_record acts = true →
  ∃ activeToday totalMessages,
    get_stats w
    = (Ok (stats (Z.of_nat (length us)) activeToday totalMessages), tick w).
Proof.
  intros Hs Ha Hus Hacts.
  destruct (get_stats_run w us acts Hs Ha Hus Hacts) as (t & Hrun & _).
  rewrite Hrun. by eauto.
Qed.

(** X16: the listing handlers cannot fail.  In every world
    [GET /api/users] and [GET /api/activity] are answered 200 with the
    value the file denotes, or with the empty array when there is none,
    and leave the world as it was; their 500 branch is never taken. *)
Theorem listing_handlers_always_answer (w : world) :
  get_users w = (Ok (users_listing (stored USERS_FILE w)), w)
  ∧ get_activity w = (Ok (activity_listing (stored ACTIVITY_FILE w)), w).
Proof.
  split.
  - unfold get_users, try_catch, bind. by rewrite readUsers_stored.
  - unfold get_activity, try_catch, bind. by rewrite readActivity_stored.
Qed.

Lemma strict_eq_compound (a b : jsval) :
  primitive b = false → strict_eq a b = false.
Proof. destruct a as [[]|], b as [[]|]; done. Qed.

(** X15: identity is compared with [===].  A valid register request
    whose [id] and [email] are both arrays or objects matches no stored
    User, so it always appends a record, and repeating it appends
    another. *)
Theorem compound_identity_never_matches (w : world) (m : gmap string json)
    (us : list json) :
  valid_register m = true →
  file_at USERS_FILE w = Holds (Denotes (Arr us)) →
  forallb is_object us = true →
  primitive (m !! "id") = false →
  primitive (m !! "email") = false →
  ∃ U1 w1 U2 w2,
    post_register (Some (Obj m)) w = (Ok (registered U1), w1)
    ∧ post_register (Some (Obj m)) w1 = (Ok (registered U2), w2)
    ∧ file_at USERS_FILE w2 = Holds (Denotes (Arr (us ++ [U1; U2]))).
Proof.
  intros Hv Hs Hobj Hid Hem.
  assert (∀ l, List.find (same_user (m !! "id") (m !! "email")) l = None)
    as Hnone.
  { intros l. apply find_none_Forall, Forall_forall. intros [] _; try done.
    simpl. by rewrite !strict_eq_compound. }
  destruct (post_register_new w m us Hv Hs Hobj (Hnone _))
    as (U1 & w1 & H1 & Hs1 & _ & HU1 & _).
  destruct (post_register_new w1 m (us ++ [U1]) Hv Hs1
              (forallb_snoc _ _ _ Hobj HU1) (Hnone _))
    as (U2 & w2 & H2 & Hs2 & _).
  exists U1, w1, U2, w2. split; [done|]. split; [done|].
  by rewrite Hs2, <- (assoc_L (++)).
Qed.

(** ** The further properties on sample inputs *)

Lemma register_new_user_record_sample :
  ∃ k w',
    post_register (Some (Obj register_carl)) world_ann
    = (Ok (registered
             (Obj (list_to_map
                [("id", Str "u3"); ("username", Str "carl");
                 ("email", Str "carl@x.com");
                 ("registeredAt",
                  js_or (register_carl !! "registeredAt")
                    (Str (sample_clock 0)));
                 ("version",
                  js_or (register_carl !! "version") (Str "1.0.0"));
                 ("lastActive", Str (sample_clock k))]))), w')
    ∧ ticks w' = S k.
Proof.
  destruct (register_new_user_record world_ann register_carl [user_ann])
    as (id & username & email & k & Hid & Hn & He & _ & w' & Hrun & _ & Ht).
  - reflexivity.
  - reflexivity.
  - reflexivity.
  - constructor; [reflexivity|constructor].
  - injection Hid as <-. injection Hn as <-. injection He as <-.
    by exists k, w'.
Defined.

Lemma distinct_ann_bob : distinct_users [user_ann; user_bob].
Proof.
  intros [|[|i]] [|[|j]] u v Hij Hi Hj; try lia; try discriminate.
  injection Hi as <-. injection Hj as <-. reflexivity.
Qed.

Lemma requests_keep_users_distinct_sample :
  distinct_users [user_ann; user_bob]
  ∧ (∃ us', file_at USERS_FILE
              (post_register (Some (Obj register_carl)) world_ann_bob).2
            = Holds (Denotes (Arr us'))
            ∧ forallb exact_identity us' = true
            ∧ distinct_users us')
  ∧ (∃ us', file_at USERS_FILE
              (post_activity (Some (Obj activity_bob)) world_ann_bob).2
            = Holds (Denotes (Arr us'))
            ∧ forallb exact_identity us' = true
            ∧ distinct_users us').
Proof.
  split; [exact distinct_ann_bob|]. split.
  - apply (requests_keep_users_distinct world_ann_bob
             (Some (Obj register_carl)) [user_ann; user_bob]);
      [reflexivity|reflexivity|reflexivity|exact distinct_ann_bob
      |reflexivity|reflexivity].
  - apply (requests_keep_users_distinct world_ann_bob
             (Some (Obj activity_bob)) [user_ann; user_bob]);
      [reflexivity|reflexivity|reflexivity|exact distinct_ann_bob].
Defined.

Lemma well_formed_ann : well_formed world_ann.
Proof. exists [user_ann], []. repeat split; simpl; lia. Qed.

Lemma requests_keep_storage_well_formed_sample :
  well_formed (initializeStorage world_fresh).2
  ∧ well_formed (post_register (Some (Obj register_carl)) world_ann).2
  ∧ well_formed (post_activity (Some (Obj activity_bob)) world_ann).2.
Proof.
  split.
  - apply (requests_keep_storage_well_formed world_fresh undefined);
      reflexivity.
  - split.
    + apply (requests_keep_storage_well_formed world_ann
               (Some (Obj register_carl))), well_formed_ann.
    + apply (requests_keep_storage_well_formed world_ann
               (Some (Obj activity_bob))), well_formed_ann.
Defined.

Lemma register_then_get_users_sample :
  ∃ newUser w2,
    post_register (Some (Obj register_u1)) (initializeStorage world_fresh).2
      = (Ok (registered newUser), w2)
    ∧ field newUser "id" = Some (Str "u1")
    ∧ get_users w2 = (Ok (users_listing (Arr [newUser])), w2).
Proof.
  apply (register_then_get_users world_fresh register_u1); reflexivity.
Defined.

Lemma requests_without_storage_sample :
  (∃ w', post_register (Some (Obj register_u1)) world_fresh
         = (Ok (server_error "Registration failed"), w')
         ∧ DATA_DIR w' = None)
  ∧ (∃ w', post_activity (Some (Obj activity_bob)) world_fresh
           = (Ok (server_error "Failed to log activity"), w')
           ∧ DATA_DIR w' = None).
Proof.
  split.
  - apply (requests_without_storage world_fresh register_u1); reflexivity.
  - apply (requests_without_storage world_fresh activity_bob); reflexivity.
Defined.

Lemma users_file_of_other_shape_sample :
  post_register (Some (Obj register_u1)) world_other_shape
  = (Ok (server_error "Registration failed"), world_other_shape)
  ∧ post_activity (Some (Obj activity_bob)) world_other_shape
    = (Ok (server_error "Failed to log activity"), world_other_shape)
  ∧ get_stats world_other_shape
    = (Ok (server_error "Failed to fetch stats"), tick world_other_shape).
Proof.
  destruct (users_file_of_other_shape world_other_shape (Obj ∅) register_u1)
    as (Hreg & _ & Hstats); [reflexivity..|].
  destruct (users_file_of_other_shape world_other_shape (Obj ∅) activity_bob)
    as (_ & Hact & _); [reflexivity..|].
  split; [apply Hreg; reflexivity|].
  split; [apply Hact; reflexivity|exact Hstats].
Defined.

Lemma activity_failure_keeps_users_update_sample :
  ∃ w' t,
    post_activity (Some (Obj (activity_by "u1" "start" 3)))
      world_locked_activity
    = (Ok (server_error "Failed to log activity"), w')
    ∧ file_at USERS_FILE w' = Holds (Denotes (Arr [touch t user_ann]))
    ∧ file_at ACTIVITY_FILE w' = Unreadable.
Proof.
  destruct (activity_failure_keeps_users_update world_locked_activity
              (activity_by "u1" "start" 3) [user_ann])
    as (w' & i & u & k & Hrun & Hf & Hs & Ha).
  - reflexivity.
  - reflexivity.
  - reflexivity.
  - exists user_ann. split; [constructor|reflexivity].
  - left. reflexivity.
  - apply list_find_Some in Hf as (Hi & _ & _).
    destruct i as [|i]; [|discriminate]. injection Hi as <-.
    by exists w', (stamp (activity_by "u1" "start" 3)
                     (clock world_locked_activity k)).
Defined.

Lemma non_string_timestamp_breaks_stats_sample :
  ∃ resp w',
    post_activity (Some (Obj activity_numeric_timestamp)) world_ann
    = (Ok resp, w')
    ∧ get_stats w' = (Ok (server_error "Failed to fetch stats"), tick w').
Proof.
  apply (non_string_timestamp_breaks_stats world_ann
           activity_numeric_timestamp [user_ann] (Num 1714557600000));
    try reflexivity.
  exists user_ann. split; [constructor|reflexivity].
Defined.

Lemma string_messagesSent_makes_total_a_string_sample :
  ∃ activeToday concatenation,
    get_stats world_string_count
    = (Ok (stats_with 1 activeToday (Str concatenation)),
       tick world_string_count).
Proof.
  apply (string_messagesSent_makes_total_a_string world_string_count
           [user_ann] (event_string_count :: sample_events)
           event_string_count "5"); try reflexivity.
  - constructor.
  - discriminate.
Defined.

Lemma activity_event_defaults_sample :
  ∃ w',
    post_activity (Some (Obj activity_bob)) world_ann = (Ok logged, w')
    ∧ file_at ACTIVITY_FILE w' =
        Holds (Denotes
          (Arr [Obj (list_to_map
                  [("userId", Str "u2"); ("action", Str "start");
                   ("messagesSent", Num 3);
                   ("timestamp", Str (sample_clock 0))])]))
    ∧ ticks w' = 1.
Proof.
  destruct (activity_event_defaults world_ann activity_bob [user_ann] [])
    as (userId & action & w' & Hu & Ha & Hrun & Hfile & Ht);
    [reflexivity..|].
  injection Hu as <-. injection Ha as <-. by exists w'.
Defined.

Lemma stats_totalUsers_sample :
  ∃ activeToday totalMessages,
    get_stats world_stats
    = (Ok (stats 2 activeToday totalMessages), tick world_stats).
Proof.
  apply (stats_totalUsers world_stats [user_ann; user_bob] sample_events);
    reflexivity.
Defined.

Lemma compound_identity_never_matches_sample :
  ∃ U1 w1 U2 w2,
    post_register (Some (Obj register_compound)) world_ann
    = (Ok (registered U1), w1)
    ∧ post_register (Some (Obj register_compound)) w1
      = (Ok (registered U2), w2)
    ∧ file_at USERS_FILE w2
      = Holds (Denotes (Arr ([user_ann] ++ [U1; U2]))).
Proof.
  apply (compound_identity_never_matches world_ann register_compound
           [user_ann]); reflexivity.
Defined.
